(** * app.py: the file-backed to-do backend

    A shallow embedding of [app.py]: the three JSON documents on disk
    ([users.json], [todos.json], [sessions.json]), the bearer-token guard
    [token_required] and the task routes, followed by the properties of the
    specification that concern them.

    Conventions of the embedding.
    - A JSON value is a [json]; Python's objects of the same shapes ([None],
      [bool], [int], [str], [list], [dict] with [str] keys) are the values the
      handlers ever hold, since everything they touch comes out of
      [json.load] or [request.get_json].  Numbers with a fraction or an
      exponent (Python [float]) are not represented.
    - A [string] is a Python [str] whose code points are below 256, one
      [ascii] per code point.
    - A handler is a function of the disk; it returns either a response and
      the disk it leaves, or the exception it raises.  Every guarded
      handler and the login write at most once, as their last effect, so an
      exception leaves the disk as it was; the signup writes twice and is
      embedded with the disk it leaves in either case.
    - The clock and the random source are read from an explicit [env].
    - The signup and login routes hash and check passwords through
      werkzeug: they are embedded over any two functions in its place. *)

From Stdlib Require Import Ascii String.
From stdpp Require Import gmap strings list fin_maps pretty.

Set Warnings "-register-all".
Local Open Scope Z_scope.

(** ** JSON values *)

Inductive json :=
| JNull
| JBool (b : bool)
| JNum (z : Z)
| JStr (s : string)
| JArr (l : list json)
| JObj (m : gmap string json).

Coercion JStr : string >-> json.

(** ** Exceptions and the result of a computation that may raise *)

Inductive exn :=
| TypeError
| KeyError
| AttributeError
| IndexError
| FileNotFoundError
| PermissionError
| JSONDecodeError.

Inductive result (A : Type) :=
| Ret (a : A)
| Raise (e : exn).
Arguments Ret {A} a.
Arguments Raise {A} e.

#[global] Instance result_ret : MRet result := λ A, @Ret A.
#[global] Instance result_bind : MBind result := λ A B f m,
  match m with
  | Ret a => f a
  | Raise e => Raise e
  end.

(** [try: m  except Exception: h] *)
Definition try_except {A} (m : result A) (h : result A) : result A :=
  match m with
  | Ret a => Ret a
  | Raise _ => h
  end.

(** ** Python primitives on JSON values *)

(** Truth value of an object: [bool(v)], [not v], [v or w]. *)
Definition truthy (v : json) : bool :=
  match v with
  | JNull => false
  | JBool b => b
  | JNum z => negb (z =? 0)
  | JStr s => negb (bool_decide (s = ""))
  | JArr l => negb (bool_decide (l = []))
  | JObj m => negb (bool_decide (dom m = ∅))
  end.

(** [x or y] *)
Definition py_or (x y : json) : json := if truthy x then x else y.

(** Looking a key up in a [dict] loaded from JSON.  The keys of the dict are
    strings; [None], a [bool] and an [int] hash but equal no string; a
    [list] or a [dict] does not hash. *)
Definition dict_lookup (m : gmap string json) (k : json) : result (option json) :=
  match k with
  | JStr s => Ret (m !! s)
  | JNull | JBool _ | JNum _ => Ret None
  | JArr _ | JObj _ => Raise TypeError
  end.

(** [d.get(k, dflt)]: only a dict has the method. *)
Definition py_get (d k dflt : json) : result json :=
  match d with
  | JObj m => o ← dict_lookup m k; Ret (default dflt o)
  | _ => Raise AttributeError
  end.

(** [d[k]] for a string [k]: a dict answers or raises [KeyError]; a list and
    a str want integer indices; nothing else is subscriptable. *)
Definition py_getitem (d : json) (k : string) : result json :=
  match d with
  | JObj m =>
      match m !! k with
      | Some v => Ret v
      | None => Raise KeyError
      end
  | _ => Raise TypeError
  end.

(** [k in c] for a string [k]. *)
Definition is_substring (k s : string) : bool :=
  bool_decide (is_Some (String.index 0 k s)).

Definition py_eq_str (v : json) (s : string) : bool :=
  match v with
  | JStr s' => bool_decide (s' = s)
  | _ => false
  end.

Definition py_contains (k : string) (c : json) : result bool :=
  match c with
  | JObj m => Ret (bool_decide (is_Some (m !! k)))
  | JArr l => Ret (existsb (λ v, py_eq_str v k) l)
  | JStr s => Ret (is_substring k s)
  | JNull | JBool _ | JNum _ => Raise TypeError
  end.

(** The key under which [json.dump] writes a dict key: a string as it is,
    [None], [True], [False] and an integer by their JSON text. *)
Definition dump_key (k : json) : result string :=
  match k with
  | JStr s => Ret s
  | JNull => Ret "null"%string
  | JBool true => Ret "true"%string
  | JBool false => Ret "false"%string
  | JNum z => Ret (pretty z)
  | JArr _ | JObj _ => Raise TypeError
  end.

(** [d[k] = v] on a document that is written back right after.  On a dict
    with a string key this is the dict update.  A key that is not a string
    is stored next to the string keys and written by [json.dump] as
    [dump_key k]; the next [json.load] keeps the last of two equal keys,
    which is this one.  A list is assigned to by an integer index, counted
    from the end when negative. *)
Definition py_setitem (d k v : json) : result json :=
  match d with
  | JObj m => s ← dump_key k; Ret (JObj (<[s := v]> m))
  | JArr l =>
      match k with
      | JNum _ | JBool _ =>
          let z := match k with JNum z => z | JBool b => Z.b2z b | _ => 0 end in
          let i := if z <? 0 then Z.of_nat (length l) + z else z in
          if (0 <=? i) && (i <? Z.of_nat (length l))
          then Ret (JArr (<[Z.to_nat i := v]> l))
          else Raise IndexError
      | _ => Raise TypeError
      end
  | _ => Raise TypeError
  end.

(** [del d[k]] for a string [k] *)
Definition py_delitem (d : json) (k : string) : result json :=
  match d with
  | JObj m =>
      match m !! k with
      | Some _ => Ret (JObj (delete k m))
      | None => Raise KeyError
      end
  | _ => Raise TypeError
  end.

(** [for t in c]: the elements a loop visits.  A dict yields its keys
    (Python in insertion order, which a [gmap] does not record), a str its
    characters. *)
Fixpoint chars (s : string) : list json :=
  match s with
  | EmptyString => []
  | String c s' => JStr (String c EmptyString) :: chars s'
  end.

Definition py_iter (c : json) : result (list json) :=
  match c with
  | JArr l => Ret l
  | JObj m => Ret (JStr <$> (map_to_list m).*1)
  | JStr s => Ret (chars s)
  | JNull | JBool _ | JNum _ => Raise TypeError
  end.

(** [lst.insert(0, x)]: only a list has the method. *)
Definition py_insert0 (lst x : json) : result json :=
  match lst with
  | JArr l => Ret (JArr (x :: l))
  | _ => Raise AttributeError
  end.

(** ** Strings *)

(** [str.isspace] on one code point below 256. *)
Definition py_isspace (c : Ascii.ascii) : bool :=
  let n := Z.of_N (Ascii.N_of_ascii c) in
  ((9 <=? n) && (n <=? 13)) || ((28 <=? n) && (n <=? 32))
  || (n =? 133) || (n =? 160).

Fixpoint lstrip (s : string) : string :=
  match s with
  | EmptyString => EmptyString
  | String c s' => if py_isspace c then lstrip s' else s
  end.

Fixpoint rstrip (s : string) : string :=
  match s with
  | EmptyString => EmptyString
  | String c s' =>
      match rstrip s' with
      | EmptyString => if py_isspace c then EmptyString else String c EmptyString
      | r => String c r
      end
  end.

(** [s.strip()] *)
Definition strip (s : string) : string := rstrip (lstrip s).

(** [v.strip()]: only a str has the method. *)
Definition py_strip (v : json) : result string :=
  match v with
  | JStr s => Ret (strip s)
  | _ => Raise AttributeError
  end.

(** [s.split(" ", 1)[1]]: what follows the first space. *)
Fixpoint after_space (s : string) : option string :=
  match s with
  | EmptyString => None
  | String c s' => if Ascii.eqb c " "%char then Some s' else after_space s'
  end.

Definition split_1 (s : string) : result string :=
  match after_space s with
  | Some r => Ret r
  | None => Raise IndexError
  end.

(** ** The disk *)

Inductive file :=
| Text (doc : json)      (* a file holding the JSON text of [doc] *)
| Garbage                (* a file that is not JSON *)
| Denied.                (* a file that cannot be opened *)

Definition USERS_FILE : string := "users.json".
Definition TODOS_FILE : string := "todos.json".
Definition SESSIONS_FILE : string := "sessions.json".

(** [with open(path) as f: json.load(f)] *)
Definition json_load (path : string) (d : gmap string file) : result json :=
  match d !! path with
  | None => Raise FileNotFoundError
  | Some Denied => Raise PermissionError
  | Some Garbage => Raise JSONDecodeError
  | Some (Text doc) => Ret doc
  end.

Definition read_json (path : string) (d : gmap string file) : result json :=
  try_except (json_load path d)
    (if bool_decide (path = SESSIONS_FILE) || bool_decide (path = TODOS_FILE)
     then Ret (JObj ∅)
     else Ret (JArr [])).

(** The document goes to [path + ".tmp"], which then replaces [path]. *)
Definition write_json (path : string) (data : json) (d : gmap string file)
  : gmap string file :=
  let tmp := path +:+ ".tmp" in
  let d1 := <[tmp := Text data]> d in
  <[path := Text data]> (delete tmp d1).

Definition load_users (d : gmap string file) : result json :=
  v ← read_json USERS_FILE d; Ret (py_or v (JArr [])).

Definition load_todos_map (d : gmap string file) : result json :=
  v ← read_json TODOS_FILE d; Ret (py_or v (JObj ∅)).

Definition save_todos_map (m : json) (d : gmap string file) : gmap string file :=
  write_json TODOS_FILE m d.

Definition load_sessions (d : gmap string file) : result json :=
  v ← read_json SESSIONS_FILE d; Ret (py_or v (JObj ∅)).

Definition save_sessions (s : json) (d : gmap string file) : gmap string file :=
  write_json SESSIONS_FILE s d.

Abbreviation disk := (gmap string file).

(** ** Requests, responses, clock and random source *)

Record request := {
  authorization : option string;  (* the Authorization header, if sent *)
  get_json : json;                (* [request.get_json()], [JNull] for None *)
}.

Record response := {
  payload : json;
  status : Z;
}.

Record env := {
  utcnow_iso : string;       (* datetime.utcnow().isoformat() *)
  time_ms : Z;               (* int(time.time()*1000) *)
  token_hex4 : string;       (* secrets.token_hex(4) *)
  token_urlsafe32 : string;  (* secrets.token_urlsafe(32) *)
}.

(** [jsonify({k: v, ...})] with the status given next to it (200 if none) *)
Definition jsonify (kvs : list (string * json)) (code : Z) : response :=
  {| payload := JObj (list_to_map kvs); status := code |}.

Definition ok_true : list (string * json) := [("ok"%string, JBool true)].

(** What Flask answers when the view raises. *)
Definition internal_server_error : response :=
  {| payload := JNull; status := 500 |}.

Definition view := request → disk → result (response * disk).

Definition serve (h : view) (req : request) (d : disk) : response * disk :=
  match h req d with
  | Ret rd => rd
  | Raise _ => (internal_server_error, d)
  end.

(** ** Auth helpers *)

(** The session record [create_token] stores. *)
Definition new_session (e : env) (username : string) : json :=
  JObj (list_to_map [("username"%string, JStr username);
                     ("createdAt"%string, JStr (utcnow_iso e))]).

Definition create_token (e : env) (username : string) (d : disk)
  : result (string * disk) :=
  sessions ← load_sessions d;
  let token := token_urlsafe32 e in
  sessions ← py_setitem sessions (JStr token) (new_session e username);
  Ret (token, save_sessions sessions d).

(** The part of [wrapper] before the call of [f]: the response it returns
    itself, or the value it binds to [request.current_user]. *)
Definition authenticate (req : request) (d : disk) : result (response + json) :=
  let header := default ""%string (authorization req) in
  if negb (String.prefix "Bearer " header) then
    Ret (inl (jsonify [("error"%string, JStr "missing token")] 401))
  else
    token ← split_1 header;
    sessions ← load_sessions d;
    s ← py_get sessions (JStr token) JNull;
    if negb (truthy s) then
      Ret (inl (jsonify [("error"%string, JStr "invalid token")] 401))
    else
      u ← py_getitem s "username";
      Ret (inr u).

Definition token_required (f : json → view) : view := λ req d,
  a ← authenticate req d;
  match a with
  | inl r => Ret (r, d)
  | inr current_user => f current_user req d
  end.

(** ** Routes *)

Definition api_logout (current_user : json) : view := λ req d,
  let header := default ""%string (authorization req) in
  token ← split_1 header;
  sessions ← load_sessions d;
  c ← py_contains token sessions;
  if c : bool then
    sessions ← py_delitem sessions token;
    Ret (jsonify ok_true 200, save_sessions sessions d)
  else
    Ret (jsonify ok_true 200, d).

Definition api_get_tasks (username : json) : view := λ req d,
  todos_map ← load_todos_map d;
  lst ← py_get todos_map username (JArr []);
  Ret (jsonify [("todos"%string, lst)] 200, d).

Definition new_task_id (e : env) : string :=
  "id_" +:+ pretty (time_ms e) +:+ "_" +:+ token_hex4 e.

(** The [task] dict of [api_create_task], from the stripped title and the
    values read for "done" and "important". *)
Definition new_task (e : env) (title : string) (dn im : json) : json :=
  JObj (list_to_map
    [("id"%string, JStr (new_task_id e));
     ("title"%string, JStr title);
     ("done"%string, JBool (truthy dn));
     ("important"%string, JBool (truthy im));
     ("createdAt"%string, JStr (utcnow_iso e))]).

Definition api_create_task (e : env) (username : json) : view := λ req d,
  let body := py_or (get_json req) (JObj ∅) in
  t ← py_get body "title" JNull;
  title ← py_strip (py_or t (JStr ""));
  if bool_decide (title = ""%string) then
    Ret (jsonify [("error"%string, JStr "title required")] 400, d)
  else
    dn ← py_get body "done" (JBool false);
    im ← py_get body "important" (JBool false);
    let task := new_task e title dn im in
    todos_map ← load_todos_map d;
    lst ← py_get todos_map username (JArr []);
    lst ← py_insert0 lst task;
    todos_map ← py_setitem todos_map username lst;
    Ret (jsonify [("ok"%string, JBool true); ("task"%string, task)] 201,
         save_todos_map todos_map d).

(** The three guarded assignments of the loop body, on the matching task. *)
Definition update_fields (body t : json) : result json :=
  c ← py_contains "title" body;
  t ← (if c : bool then
         old ← py_get t "title" JNull;
         v ← py_get body "title" old;
         py_setitem t "title" v
       else Ret t);
  c ← py_contains "done" body;
  t ← (if c : bool then
         v ← py_get body "done" JNull;
         py_setitem t "done" (JBool (truthy v))
       else Ret t);
  c ← py_contains "important" body;
  t ← (if c : bool then
         v ← py_get body "important" JNull;
         py_setitem t "important" (JBool (truthy v))
       else Ret t);
  Ret t.

(** [for t in lst]: the list with the first task of that id updated in
    place, and that task; [None] when the loop runs out. *)
Fixpoint update_loop (task_id : string) (body : json) (ts : list json)
  : result (option (list json * json)) :=
  match ts with
  | [] => Ret None
  | t :: rest =>
      i ← py_get t "id" JNull;
      if py_eq_str i task_id then
        t' ← update_fields body t;
        Ret (Some (t' :: rest, t'))
      else
        r ← update_loop task_id body rest;
        Ret (match r with
             | Some (ts', t') => Some (t :: ts', t')
             | None => None
             end)
  end.

(** [t] is an element of [lst] and [lst] the entry of [todos_map] under
    [username], so the writes to [t] are in the document that is saved. *)
Definition api_update_task (task_id : string) (username : json) : view := λ req d,
  let body := py_or (get_json req) (JObj ∅) in
  todos_map ← load_todos_map d;
  lst ← py_get todos_map username (JArr []);
  ts ← py_iter lst;
  r ← update_loop task_id body ts;
  match r with
  | Some (ts', t) =>
      todos_map ← py_setitem todos_map username (JArr ts');
      Ret (jsonify [("ok"%string, JBool true); ("task"%string, t)] 200,
           save_todos_map todos_map d)
  | None => Ret (jsonify [("error"%string, JStr "task not found")] 404, d)
  end.

(** [[t for t in lst if t.get("id") != task_id]] *)
Fixpoint without_id (task_id : string) (ts : list json) : result (list json) :=
  match ts with
  | [] => Ret []
  | t :: rest =>
      i ← py_get t "id" JNull;
      r ← without_id task_id rest;
      Ret (if py_eq_str i task_id then r else t :: r)
  end.

Definition api_delete_task (task_id : string) (username : json) : view := λ req d,
  todos_map ← load_todos_map d;
  lst ← py_get todos_map username (JArr []);
  ts ← py_iter lst;
  newlst ← without_id task_id ts;
  todos_map ← py_setitem todos_map username (JArr newlst);
  Ret (jsonify ok_true 200, save_todos_map todos_map d).

(** The keys of a Python dict that JSON scalars give: [True] and [1] are
    the same key, [False] and [0] are. *)
Inductive pykey :=
| KNone
| KInt (z : Z)
| KStr (s : string).

#[global] Instance pykey_eq_dec : EqDecision pykey.
Proof. solve_decision. Defined.

#[global] Instance pykey_countable : Countable pykey.
Proof.
  refine (inj_countable'
    (λ k, match k with
          | KNone => inl ()
          | KInt z => inr (inl z)
          | KStr s => inr (inr s)
          end)
    (λ x, match x with
          | inl _ => KNone
          | inr (inl z) => KInt z
          | inr (inr s) => KStr s
          end) _).
  by intros [].
Defined.

(** [hash(v)]: a list and a dict are unhashable. *)
Definition py_hash (v : json) : result pykey :=
  match v with
  | JNull => Ret KNone
  | JBool b => Ret (KInt (Z.b2z b))
  | JNum z => Ret (KInt z)
  | JStr s => Ret (KStr s)
  | JArr _ | JObj _ => Raise TypeError
  end.

(** [{t["id"]: t for t in lst}], filling [acc] from the left *)
Fixpoint id_to_task (ts : list json) (acc : gmap pykey json)
  : result (gmap pykey json) :=
  match ts with
  | [] => Ret acc
  | t :: rest =>
      i ← py_getitem t "id";
      k ← py_hash i;
      id_to_task rest (<[k := t]> acc)
  end.

(** [[id_to_task[i] for i in order if i in id_to_task]] *)
Fixpoint in_order (m : gmap pykey json) (order : list json) : result (list json) :=
  match order with
  | [] => Ret []
  | i :: rest =>
      k ← py_hash i;
      r ← in_order m rest;
      Ret (match m !! k with
           | Some t => t :: r
           | None => r
           end)
  end.

Definition api_reorder (username : json) : view := λ req d,
  let body := py_or (get_json req) (JObj ∅) in
  order ← py_get body "order" JNull;
  match order with
  | JArr order =>
      todos_map ← load_todos_map d;
      lst ← py_get todos_map username (JArr []);
      ts ← py_iter lst;
      m ← id_to_task ts ∅;
      newlst ← in_order m order;
      todos_map ← py_setitem todos_map username (JArr newlst);
      Ret (jsonify ok_true 200, save_todos_map todos_map d)
  | _ => Ret (jsonify [("error"%string, JStr "order must be list of ids")] 400, d)
  end.

Definition api_export (e : env) (username : json) : view := λ req d,
  todos_map ← load_todos_map d;
  lst ← py_get todos_map username (JArr []);
  Ret (jsonify
         [("meta"%string,
           JObj (list_to_map [("user"%string, username);
                              ("exportedAt"%string, JStr (utcnow_iso e))]));
          ("todos"%string, lst)] 200, d).

Definition api_import (username : json) : view := λ req d,
  let body := py_or (get_json req) (JObj ∅) in
  todos ← py_get body "todos" JNull;
  match todos with
  | JArr _ =>
      todos_map ← load_todos_map d;
      todos_map ← py_setitem todos_map username todos;
      Ret (jsonify ok_true 200, save_todos_map todos_map d)
  | _ => Ret (jsonify [("error"%string, JStr "invalid payload")] 400, d)
  end.

(** ** Accounts

    [generate_password_hash] and [check_password_hash] are werkzeug's.  The
    routes are embedded over any two functions in their place: the first
    also takes the salt it draws, and both may raise. *)

(** [lst.append(x)]: only a list has the method. *)
Definition py_append (lst x : json) : result json :=
  match lst with
  | JArr l => Ret (JArr (l ++ [x]))
  | _ => Raise AttributeError
  end.

(** [d.setdefault(k, dflt)] for a string [k]: the receiver after the call. *)
Definition py_setdefault (d : json) (k : string) (dflt : json) : result json :=
  match d with
  | JObj m =>
      Ret (JObj (match m !! k with
                 | Some _ => m
                 | None => <[k := dflt]> m
                 end))
  | _ => Raise AttributeError
  end.

Definition save_users (users : json) (d : disk) : disk :=
  write_json USERS_FILE users d.

(** [any(u.get("username") == username for u in users)] *)
Fixpoint any_username (username : string) (us : list json) : result bool :=
  match us with
  | [] => Ret false
  | u :: rest =>
      n ← py_get u "username" JNull;
      if py_eq_str n username then Ret true else any_username username rest
  end.

(** [next((u for u in users if u.get("username") == username), None)] *)
Fixpoint find_user (username : string) (us : list json) : result json :=
  match us with
  | [] => Ret JNull
  | u :: rest =>
      n ← py_get u "username" JNull;
      if py_eq_str n username then Ret u else find_user username rest
  end.

Section Accounts.
Context (generate_password_hash : string → json → result string).
Context (check_password_hash : json → json → result bool).

(** The record [meta] of [api_signup]. *)
Definition new_user (e : env) (username password_hash : string) : json :=
  JObj (list_to_map
    [("username"%string, JStr username);
     ("password_hash"%string, JStr password_hash);
     ("createdAt"%string, JStr (utcnow_iso e))]).

(** [api_signup] down to [save_users(users)]: the response it returns
    before, or the username and the disk with the users written. *)
Definition signup_users (e : env) (salt : string) (req : request) (d : disk)
  : result (response + string * disk) :=
  let body := py_or (get_json req) (JObj ∅) in
  u ← py_get body "username" JNull;
  username ← py_strip (py_or u (JStr ""));
  p ← py_get body "password" JNull;
  let password := py_or p (JStr "") in
  if bool_decide (username = ""%string) || negb (truthy password) then
    Ret (inl (jsonify [("error"%string,
                        JStr "username and password are required")] 400))
  else
    users ← load_users d;
    us ← py_iter users;
    taken ← any_username username us;
    if taken : bool then
      Ret (inl (jsonify [("error"%string, JStr "username exists")] 400))
    else
      password_hash ← generate_password_hash salt password;
      users ← py_append users (new_user e username password_hash);
      Ret (inr (username, save_users users d)).

(** The rest of [api_signup]: the empty list of the new user. *)
Definition signup_todos (e : env) (username : string) : disk → result (response * disk) :=
  λ d,
  todos_map ← load_todos_map d;
  todos_map ← py_setdefault todos_map username (JArr []);
  Ret (jsonify
         [("ok"%string, JBool true);
          ("user"%string,
           JObj (list_to_map [("username"%string, JStr username);
                              ("createdAt"%string, JStr (utcnow_iso e))]))] 201,
       save_todos_map todos_map d).

(** What the signup route answers and the disk it leaves.  The users are
    written before the todos are read: when the second half raises, the
    new user stays written. *)
Definition api_signup (e : env) (salt : string) (req : request) (d : disk)
  : response * disk :=
  match signup_users e salt req d with
  | Raise _ => (internal_server_error, d)
  | Ret (inl r) => (r, d)
  | Ret (inr (username, d1)) =>
      match signup_todos e username d1 with
      | Ret rd => rd
      | Raise _ => (internal_server_error, d1)
      end
  end.

Definition api_login (e : env) : view := λ req d,
  let body := py_or (get_json req) (JObj ∅) in
  u ← py_get body "username" JNull;
  username ← py_strip (py_or u (JStr ""));
  p ← py_get body "password" JNull;
  let password := py_or p (JStr "") in
  if bool_decide (username = ""%string) || negb (truthy password) then
    Ret (jsonify [("error"%string,
                   JStr "username and password required")] 400, d)
  else
    users ← load_users d;
    us ← py_iter users;
    user ← find_user username us;
    bad ← (if negb (truthy user) then Ret true
           else
             h ← py_get user "password_hash" (JStr "");
             ok ← check_password_hash h password;
             Ret (negb ok));
    if bad : bool then
      Ret (jsonify [("error"%string, JStr "invalid credentials")] 401, d)
    else
      '(token, d') ← create_token e username d;
      created ← py_get user "createdAt" JNull;
      Ret (jsonify
             [("ok"%string, JBool true);
              ("token"%string, JStr token);
              ("user"%string,
               JObj (list_to_map [("username"%string, JStr username);
                                  ("createdAt"%string, created)]))] 200,
           d').
End Accounts.

(** ** Module initialisation

    [if not F.exists(): F.write_text(...)] for the three files, with "[]"
    for the users and "{}" for the todos and the sessions. *)



(** ** Observations used to state the properties *)

(** A field of a task (of any JSON object). *)
Definition field (k : string) (v : json) : option json :=
  match v with
  | JObj m => m !! k
  | _ => None
  end.

(** Every character of the string is whitespace. *)
Fixpoint blank (s : string) : bool :=
  match s with
  | EmptyString => true
  | String c s' => py_isspace c && blank s'
  end.

(** A JSON object, the shape of a task. *)
Definition is_obj (v : json) : bool :=
  match v with
  | JObj _ => true
  | _ => false
  end.

(** The task carries the id [task_id]: [t.get("id") == task_id]. *)
Definition has_id (task_id : string) (t : json) : bool :=
  match field "id" t with
  | Some i => py_eq_str i task_id
  | None => false
  end.

(** A task after the patch [b]: the three settable fields that [b] names
    are overwritten, the flags by the truth value of what [b] gives. *)
Definition patched (b tm : gmap string json) : gmap string json :=
  let tm := match b !! "title" with
            | Some v => <["title" := v]> tm
            | None => tm
            end in
  let tm := match b !! "done" with
            | Some v => <["done" := JBool (truthy v)]> tm
            | None => tm
            end in
  match b !! "important" with
  | Some v => <["important" := JBool (truthy v)]> tm
  | None => tm
  end.

(** The dict key that a JSON value gives, if it hashes. *)
Definition key_of (v : json) : option pykey :=
  match py_hash v with
  | Ret k => Some k
  | Raise _ => None
  end.

(** The key of the "id" of a task. *)
Definition task_key (t : json) : option pykey := field "id" t ≫= key_of.

(** The last task of the list under the key [k]. *)
Fixpoint last_with (k : pykey) (lst : list json) : option json :=
  match lst with
  | [] => None
  | t :: rest =>
      match last_with k rest with
      | Some t' => Some t'
      | None => if decide (task_key t = Some k) then Some t else None
      end
  end.

(** For each id of the order that some task carries: the last task of the
    list that carries it. *)
Definition reordered (lst order : list json) : list json :=
  omap (λ i, k ← key_of i; last_with k lst) order.

(** The words of the specification: the tasks whose ids appear in the order,
    id by id in the order given, each id standing for the tasks that carry
    it. *)
Definition reorder_spec (lst order : list json) : list json :=
  order ≫= (λ i, filter (λ t, is_Some (key_of i) ∧ task_key t = key_of i) lst).

(** Both flags of the task are booleans. *)
Definition bool_flags (t : json) : Prop :=
  (∃ x, field "done" t = Some (JBool x)) ∧
  (∃ y, field "important" t = Some (JBool y)).

(** The list of a user as every task route reads it:
    [load_todos_map().get(username, [])]. *)
Definition list_of (d : disk) (username : json) : result json :=
  todos_map ← load_todos_map d;
  py_get todos_map username (JArr []).

(** The session of a token as [wrapper] reads it:
    [load_sessions().get(token)]. *)
Definition session_of (d : disk) (token : string) : result json :=
  sessions ← load_sessions d;
  py_get sessions (JStr token) JNull.

Definition bearer (token : string) : option string :=
  Some ("Bearer " +:+ token).

Definition missing_token : response :=
  jsonify [("error"%string, JStr "missing token")] 401.

Definition invalid_token : response :=
  jsonify [("error"%string, JStr "invalid token")] 401.

(** The calls that reach the disk: [create_token] (made by the login route
    once the credentials are checked) and the guarded routes. *)
Inductive call :=
| IssueToken (e : env) (username : string)
| Logout (req : request)
| GetTasks (req : request)
| CreateTask (e : env) (req : request)
| UpdateTask (task_id : string) (req : request)
| DeleteTask (task_id : string) (req : request)
| Reorder (req : request)
| Export (e : env) (req : request)
| Import (req : request).

Definition run (c : call) (d : disk) : disk :=
  match c with
  | IssueToken e username =>
      match create_token e username d with
      | Ret (_, d') => d'
      | Raise _ => d
      end
  | Logout req => (serve (token_required api_logout) req d).2
  | GetTasks req => (serve (token_required api_get_tasks) req d).2
  | CreateTask e req => (serve (token_required (api_create_task e)) req d).2
  | UpdateTask i req => (serve (token_required (api_update_task i)) req d).2
  | DeleteTask i req => (serve (token_required (api_delete_task i)) req d).2
  | Reorder req => (serve (token_required api_reorder) req d).2
  | Export e req => (serve (token_required (api_export e)) req d).2
  | Import req => (serve (token_required api_import) req d).2
  end.

Definition run_all (cs : list call) (d : disk) : disk :=
  foldl (λ d c, run c d) d cs.

(** The call hands out [token]. *)
Definition issues (token : string) (c : call) : Prop :=
  match c with
  | IssueToken e _ => token_urlsafe32 e = token
  | _ => False
  end.

(** The call is a logout carrying [token]. *)
Definition revokes (token : string) (c : call) : Prop :=
  match c with
  | Logout req => authorization req = bearer token
  | _ => False
  end.

(** A view that leaves the sessions document as it found it. *)
Definition keeps_sessions (h : json → view) : Prop :=
  ∀ u req d r d', h u req d = Ret (r, d') → load_sessions d' = load_sessions d.

(** The fields that [update_fields] can touch. *)
Definition settable (k : string) : Prop :=
  k = "title"%string ∨ k = "done"%string ∨ k = "important"%string.

(** The call is one of the guarded task routes. *)
Definition task_call (c : call) : Prop :=
  match c with
  | IssueToken _ _ | Logout _ => False
  | _ => True
  end.

(** The request of a call to a guarded route. *)
Definition request_of (c : call) : option request :=
  match c with
  | IssueToken _ _ => None
  | Logout req | GetTasks req | CreateTask _ req | UpdateTask _ req
  | DeleteTask _ req | Reorder req | Export _ req | Import req => Some req
  end.

(** What a call answers. *)
Definition answer (c : call) (d : disk) : option response :=
  match c with
  | IssueToken _ _ => None
  | Logout req => Some (serve (token_required api_logout) req d).1
  | GetTasks req => Some (serve (token_required api_get_tasks) req d).1
  | CreateTask e req => Some (serve (token_required (api_create_task e)) req d).1
  | UpdateTask i req => Some (serve (token_required (api_update_task i)) req d).1
  | DeleteTask i req => Some (serve (token_required (api_delete_task i)) req d).1
  | Reorder req => Some (serve (token_required api_reorder) req d).1
  | Export e req => Some (serve (token_required (api_export e)) req d).1
  | Import req => Some (serve (token_required api_import) req d).1
  end.

(** The todos document is a mapping and every entry of it is a list. *)
Definition wf_todos (d : disk) : Prop :=
  ∃ m, load_todos_map d = Ret (JObj m) ∧
       ∀ k v, m !! k = Some v → ∃ l, v = JArr l.

(** The sessions document is a mapping and every entry of it is a session
    that names a user. *)
Definition wf_sessions (d : disk) : Prop :=
  ∃ m, load_sessions d = Ret (JObj m) ∧
       ∀ t s, m !! t = Some s →
         truthy s = true ∧ ∃ u : string, py_getitem s "username" = Ret (JStr u).

(** The users document is a list of records. *)
Definition users_of (d : disk) : result (list json) :=
  users ← load_users d; py_iter users.

(** A view that, on a todos document that is a mapping, writes at most
    the entry of its user, and writes a list there. *)
Definition writes_list (h : json → view) : Prop :=
  ∀ u req d r d' m,
    load_todos_map d = Ret (JObj m) →
    h u req d = Ret (r, d') →
    d' = d ∨
    ∃ s l, dump_key u = Ret s ∧
           d' = save_todos_map (JObj (<[s := JArr l]> m)) d.


(** What follows the first dollar sign. *)
Fixpoint after_dollar (s : string) : option string :=
  match s with
  | EmptyString => None
  | String c s' => if Ascii.eqb c "$"%char then Some s' else after_dollar s'
  end.

(** The record carries the user name: [u.get("username") == username]. *)
Definition has_name (username : string) (u : json) : bool :=
  match field "username" u with
  | Some v => py_eq_str v username
  | None => false
  end.

(** A request body with the two credentials. *)
Definition credentials (username password : string) : json :=
  JObj (<["username"%string := JStr username]>
          {[ "password"%string := JStr password ]}).

(** A stand-in for werkzeug in the concrete runs: the hash is the salt,
    a dollar sign and the password. *)
Definition toy_hash (salt : string) (password : json) : result string :=
  match password with
  | JStr p => Ret (salt +:+ "$" +:+ p)
  | _ => Raise AttributeError
  end.

Definition toy_check (h password : json) : result bool :=
  match h, password with
  | JStr h, JStr p =>
      Ret (match after_dollar h with
           | Some p' => bool_decide (p' = p)
           | None => false
           end)
  | _, _ => Raise AttributeError
  end.

(** ** A concrete run

    The disk as the module initialises it, Alice logged in, and two lists
    put in place through Import: one with three tasks, one with two tasks
    that carry the same id. *)

Definition env0 : env :=
  {| utcnow_iso := "2024-01-01T00:00:00";
     time_ms := 1700000000000;
     token_hex4 := "deadbeef";
     token_urlsafe32 := "tok-alice" |}.

Definition env1 : env :=
  {| utcnow_iso := "2024-01-01T00:00:00";
     time_ms := 1700000000000;
     token_hex4 := "0badcafe";
     token_urlsafe32 := "tok-bob" |}.

Definition disk0 : disk :=
  <[USERS_FILE := Text (JArr [])]>
    (<[TODOS_FILE := Text (JObj ∅)]>
       (<[SESSIONS_FILE := Text (JObj ∅)]> ∅)).

Definition disk_alice : disk := run (IssueToken env0 "alice") disk0.

Definition as_alice (body : json) : request :=
  {| authorization := bearer "tok-alice"; get_json := body |}.

Definition mk_task (i title : string) : json :=
  JObj (list_to_map
    [("id"%string, JStr i);
     ("title"%string, JStr title);
     ("done"%string, JBool false);
     ("important"%string, JBool false);
     ("createdAt"%string, JStr "2024-01-01T00:00:00")]).

Definition task_a : json := mk_task "a" "A".
Definition task_b : json := mk_task "b" "B".
Definition task_c : json := mk_task "c" "C".

Definition import_body (l : list json) : json :=
  JObj {[ "todos"%string := JArr l ]}.

Definition disk_abc : disk :=
  run (Import (as_alice (import_body [task_a; task_b; task_c]))) disk_alice.

Definition task_x1 : json := mk_task "x" "first".
Definition task_x2 : json := mk_task "x" "second".

Definition disk_dup : disk :=
  run (Import (as_alice (import_body [task_x1; task_x2]))) disk_alice.

Definition order_body (l : list json) : json :=
  JObj {[ "order"%string := JArr l ]}.

Definition anonymous (body : json) : request :=
  {| authorization := None; get_json := body |}.

(** Alice signed up on the initial disk, with the stand-in hash. *)
Definition disk_signed : disk :=
  (api_signup toy_hash env0 "salt" (anonymous (credentials " alice " "s3cret"))
     disk0).2.

(** ** The persistence layer *)

Lemma bind_ret {A B} (a : A) (f : A → result B) : (Ret a ≫= f) = f a.
Proof. reflexivity. Qed.

Lemma bind_raise {A B} (e : exn) (f : A → result B) : (Raise e ≫= f) = Raise e.
Proof. reflexivity. Qed.

Lemma bind_inv {A B} (m : result A) (f : A → result B) (b : B) :
  m ≫= f = Ret b → ∃ a, m = Ret a ∧ f a = Ret b.
Proof. destruct m as [a|e]; [eauto | discriminate]. Qed.

Lemma read_json_returns path d : ∃ v, read_json path d = Ret v.
Proof.
  unfold read_json. destruct (json_load path d) as [v|e]; simpl; [eauto|].
  case_match; eauto.
Qed.

Lemma py_or_obj m : py_or (JObj m) (JObj ∅) = JObj m.
Proof.
  unfold py_or; simpl. case_bool_decide as H; simpl; [|done].
  apply dom_empty_inv_L in H. by subst.
Qed.

Lemma read_json_write path data d : read_json path (write_json path data d) = Ret data.
Proof.
  unfold read_json, json_load, write_json. by rewrite lookup_insert_eq.
Qed.

Lemma read_json_write_ne path path' data d :
  path' ≠ path → path' ≠ path +:+ ".tmp" →
  read_json path' (write_json path data d) = read_json path' d.
Proof.
  intros H1 H2. unfold read_json, json_load, write_json.
  rewrite lookup_insert_ne by done. rewrite lookup_delete_ne by done.
  by rewrite lookup_insert_ne by done.
Qed.

Lemma load_todos_save m d : load_todos_map (save_todos_map (JObj m) d) = Ret (JObj m).
Proof.
  unfold load_todos_map, save_todos_map. rewrite read_json_write. simpl.
  by rewrite py_or_obj.
Qed.

Lemma load_sessions_save m d : load_sessions (save_sessions (JObj m) d) = Ret (JObj m).
Proof.
  unfold load_sessions, save_sessions. rewrite read_json_write. simpl.
  by rewrite py_or_obj.
Qed.

Lemma load_sessions_save_todos x d : load_sessions (save_todos_map x d) = load_sessions d.
Proof.
  unfold load_sessions, save_todos_map. by rewrite read_json_write_ne by (by compute).
Qed.

Lemma load_todos_save_sessions x d : load_todos_map (save_sessions x d) = load_todos_map d.
Proof.
  unfold load_todos_map, save_sessions. by rewrite read_json_write_ne by (by compute).
Qed.

(** C7: a read that fails, because the file is missing, cannot be opened or
    does not parse, is answered by the empty mapping for the sessions and
    todos files and by the empty sequence for the users file (and for any
    other path); [read_json] itself never raises. *)
Theorem read_json_fail_open (path : string) (d : disk) :
  (∃ v, read_json path d = Ret v) ∧
  ∀ e, json_load path d = Raise e →
    (path = SESSIONS_FILE ∨ path = TODOS_FILE → read_json path d = Ret (JObj ∅)) ∧
    (path = USERS_FILE → read_json path d = Ret (JArr [])) ∧
    (path ≠ SESSIONS_FILE → path ≠ TODOS_FILE → read_json path d = Ret (JArr [])).
Proof.
  split; [apply read_json_returns|].
  intros e He. unfold read_json. rewrite He. simpl.
  split; [|split].
  - intros [->| ->]; reflexivity.
  - intros ->. reflexivity.
  - intros H1 H2. by rewrite !bool_decide_eq_false_2.
Qed.

Lemma read_json_fail_open_witness :
  read_json SESSIONS_FILE ∅ = Ret (JObj ∅) ∧
  read_json TODOS_FILE (<[TODOS_FILE := Garbage]> ∅) = Ret (JObj ∅) ∧
  read_json USERS_FILE (<[USERS_FILE := Denied]> ∅) = Ret (JArr []).
Proof.
  pose proof (proj2 (read_json_fail_open SESSIONS_FILE ∅)
                FileNotFoundError eq_refl) as (H1 & _).
  pose proof (proj2 (read_json_fail_open TODOS_FILE (<[TODOS_FILE := Garbage]> ∅))
                JSONDecodeError eq_refl) as (H2 & _).
  pose proof (proj2 (read_json_fail_open USERS_FILE (<[USERS_FILE := Denied]> ∅))
                PermissionError eq_refl) as (_ & H3 & _).
  split; [|split].
  - apply H1. by left.
  - apply H2. by right.
  - by apply H3.
Defined.

(** ** Sessions *)

Lemma prefix_bearer h : String.prefix "Bearer " h = true → ∃ t, h = "Bearer " +:+ t.
Proof.
  intros H.
  do 7 (destruct h as [|c h]; simpl in H; [discriminate|];
        match type of H with
        | (if ?x then _ else _) = _ => destruct x as [<-|]; [|discriminate]
        end).
  by exists h.
Qed.

Lemma prefix_bearer_app t : String.prefix "Bearer " ("Bearer " +:+ t) = true.
Proof. by destruct t. Qed.

Lemma split_1_bearer t : split_1 ("Bearer " +:+ t) = Ret t.
Proof. reflexivity. Qed.

Lemma authenticate_bearer token req d :
  authorization req = bearer token →
  authenticate req d =
    (s ← session_of d token;
     if negb (truthy s) then Ret (inl invalid_token)
     else u ← py_getitem s "username"; Ret (inr u)).
Proof.
  intros H. unfold authenticate, session_of, bearer in *. rewrite H.
  cbn [default id]. rewrite prefix_bearer_app, split_1_bearer. cbn [negb].
  rewrite bind_ret. destruct (load_sessions d) as [ss|]; [|reflexivity].
  rewrite !bind_ret. destruct (py_get ss token JNull); reflexivity.
Qed.

Lemma authenticate_no_bearer req d :
  String.prefix "Bearer " (default ""%string (authorization req)) = false →
  authenticate req d = Ret (inl missing_token).
Proof. intros H. unfold authenticate. by rewrite H. Qed.

Lemma session_of_save_sessions m d token :
  session_of (save_sessions (JObj m) d) token = Ret (default JNull (m !! token)).
Proof. unfold session_of. by rewrite load_sessions_save. Qed.

Lemma session_of_obj d token v :
  session_of d token = Ret v →
  ∃ m, load_sessions d = Ret (JObj m) ∧ v = default JNull (m !! token).
Proof.
  unfold session_of. intros H. apply bind_inv in H as (ss & Hs & H).
  destruct ss; try discriminate. simpl in H. injection H as <-. eauto.
Qed.

Lemma create_token_inv e username d token d1 :
  create_token e username d = Ret (token, d1) →
  ∃ m, load_sessions d = Ret (JObj m) ∧ token = token_urlsafe32 e ∧
       d1 = save_sessions (JObj (<[token := new_session e username]> m)) d.
Proof.
  unfold create_token. intros H. apply bind_inv in H as (ss & Hs & H).
  destruct ss; try discriminate. simpl in H. injection H as <- <-. eauto.
Qed.

(** Inversion of a view that returned: one step per bind, branch and match. *)
Ltac view_inv H :=
  repeat match type of H with
  | _ ≫= _ = Ret _ => apply bind_inv in H as (? & ? & H)
  | Ret _ = Ret _ => injection H as <- <-
  | Raise _ = Ret _ => discriminate H
  | match ?x with _ => _ end = Ret _ => destruct x
  end.

Lemma api_get_tasks_keeps_sessions : keeps_sessions api_get_tasks.
Proof.
  intros u req d r d' H. unfold api_get_tasks in H. view_inv H. done.
Qed.

Lemma api_create_task_keeps_sessions e : keeps_sessions (api_create_task e).
Proof.
  intros u req d r d' H. unfold api_create_task in H. cbv zeta in H.
  view_inv H; [done | apply load_sessions_save_todos].
Qed.

Lemma api_update_task_keeps_sessions i : keeps_sessions (api_update_task i).
Proof.
  intros u req d r d' H. unfold api_update_task in H. cbv zeta in H.
  view_inv H; [apply load_sessions_save_todos | done].
Qed.

Lemma api_delete_task_keeps_sessions i : keeps_sessions (api_delete_task i).
Proof.
  intros u req d r d' H. unfold api_delete_task in H.
  view_inv H. apply load_sessions_save_todos.
Qed.

Lemma api_reorder_keeps_sessions : keeps_sessions api_reorder.
Proof.
  intros u req d r d' H. unfold api_reorder in H. cbv zeta in H.
  view_inv H; done || apply load_sessions_save_todos.
Qed.

Lemma api_export_keeps_sessions e : keeps_sessions (api_export e).
Proof.
  intros u req d r d' H. unfold api_export in H. view_inv H. done.
Qed.

Lemma api_import_keeps_sessions : keeps_sessions api_import.
Proof.
  intros u req d r d' H. unfold api_import in H. cbv zeta in H.
  view_inv H; done || apply load_sessions_save_todos.
Qed.

Lemma serve_keeps_sessions h req d :
  keeps_sessions h → load_sessions (serve (token_required h) req d).2 = load_sessions d.
Proof.
  intros Hh. unfold serve, token_required.
  destruct (authenticate req d) as [[r|u]|]; simpl; try done.
  destruct (h u req d) as [[r d']|] eqn:E; simpl; [|done].
  by eapply Hh.
Qed.

Lemma session_of_ext d d' token :
  load_sessions d' = load_sessions d → session_of d' token = session_of d token.
Proof. unfold session_of. by intros ->. Qed.

Lemma authenticate_ext d d' req :
  load_sessions d' = load_sessions d → authenticate req d' = authenticate req d.
Proof. unfold authenticate. by intros ->. Qed.

Lemma api_logout_run token d u req m :
  authorization req = bearer token →
  load_sessions d = Ret (JObj m) →
  api_logout u req d =
    Ret (jsonify ok_true 200,
         if bool_decide (is_Some (m !! token))
         then save_sessions (JObj (delete token m)) d
         else d).
Proof.
  intros H Hm. unfold api_logout, bearer in *. rewrite H. cbn [default id].
  rewrite split_1_bearer, bind_ret, Hm, bind_ret. cbn [py_contains].
  rewrite bind_ret. case_bool_decide as Hin; [|done].
  destruct Hin as [v Hv]. unfold py_delitem. by rewrite Hv.
Qed.

Lemma logout_session req d token :
  authorization req ≠ bearer token →
  session_of (serve (token_required api_logout) req d).2 token = session_of d token.
Proof.
  intros Hne. unfold serve, token_required.
  destruct (String.prefix "Bearer " (default ""%string (authorization req))) eqn:Hp.
  - apply prefix_bearer in Hp as [t Ht].
    assert (authorization req = bearer t) as Hb.
    { destruct (authorization req); [by simplify_eq/= | by destruct t]. }
    assert (t ≠ token) as Htok by (intros ->; done).
    rewrite (authenticate_bearer t) by done.
    destruct (session_of d t) as [s|] eqn:Hs; [|done].
    apply session_of_obj in Hs as (m & Hm & ->).
    rewrite bind_ret. destruct (negb (truthy _)); [done|].
    destruct (py_getitem _ _) as [u|]; [|done].
    rewrite !bind_ret, (api_logout_run t _ _ _ m) by done.
    case_bool_decide; [|done]. cbn [snd].
    rewrite session_of_save_sessions. unfold session_of. rewrite Hm, bind_ret.
    cbn. by rewrite lookup_delete_ne.
  - by rewrite authenticate_no_bearer.
Qed.

Lemma issue_session e username d token :
  token_urlsafe32 e ≠ token →
  session_of (run (IssueToken e username) d) token = session_of d token.
Proof.
  intros Hne. cbn [run].
  destruct (create_token e username d) as [[t d1]|] eqn:E; [|done].
  apply create_token_inv in E as (m & Hm & -> & ->).
  rewrite session_of_save_sessions. unfold session_of. rewrite Hm, bind_ret.
  cbn. by rewrite lookup_insert_ne.
Qed.

(** A call that neither hands out nor revokes a token leaves its session. *)
Lemma run_session c d token :
  ¬ issues token c → ¬ revokes token c →
  session_of (run c d) token = session_of d token.
Proof.
  intros Hi Hr. destruct c; cbn [run issues revokes] in *.
  - by apply issue_session.
  - by apply logout_session.
  - apply session_of_ext, serve_keeps_sessions, api_get_tasks_keeps_sessions.
  - apply session_of_ext, serve_keeps_sessions, api_create_task_keeps_sessions.
  - apply session_of_ext, serve_keeps_sessions, api_update_task_keeps_sessions.
  - apply session_of_ext, serve_keeps_sessions, api_delete_task_keeps_sessions.
  - apply session_of_ext, serve_keeps_sessions, api_reorder_keeps_sessions.
  - apply session_of_ext, serve_keeps_sessions, api_export_keeps_sessions.
  - apply session_of_ext, serve_keeps_sessions, api_import_keeps_sessions.
Qed.

Lemma run_all_session cs d token :
  Forall (λ c, ¬ issues token c ∧ ¬ revokes token c) cs →
  session_of (run_all cs d) token = session_of d token.
Proof.
  intros H. revert d. induction H as [|c cs [Hi Hr] _ IH]; intros d; [done|].
  change (run_all (c :: cs) d) with (run_all cs (run c d)).
  rewrite IH. by apply run_session.
Qed.

(** Once a token has no session, only handing it out again gives it one. *)
Lemma run_no_session c d token :
  ¬ issues token c →
  session_of d token = Ret JNull → session_of (run c d) token = Ret JNull.
Proof.
  intros Hi Hs.
  destruct c; try (rewrite run_session; by auto).
  destruct (decide (authorization req = bearer token)) as [Hb|Hb].
  - cbn [run]. unfold serve, token_required.
    by rewrite (authenticate_bearer token), Hs.
  - rewrite run_session; by auto.
Qed.

Lemma run_all_no_session cs d token :
  Forall (λ c, ¬ issues token c) cs →
  session_of d token = Ret JNull → session_of (run_all cs d) token = Ret JNull.
Proof.
  intros H. revert d. induction H as [|c cs Hi _ IH]; intros d Hs; [done|].
  change (run_all (c :: cs) d) with (run_all cs (run c d)).
  apply IH. by apply run_no_session.
Qed.

(** C1: a token that [create_token] returned for [username] authenticates as
    [username] on every disk where its session is still the one stored, and
    the session stays through every call that neither logs the token out nor
    hands it out again; the logout of the token answers ok, and from then on,
    through every sequence of calls that does not hand the token out again,
    the token is answered by "invalid token". *)
Theorem token_lifecycle (e : env) (username token : string) (d d1 : disk) :
  create_token e username d = Ret (token, d1) →
  (∀ d2 req,
     authorization req = bearer token →
     session_of d2 token = session_of d1 token →
     authenticate req d2 = Ret (inr (JStr username))) ∧
  (∀ cs,
     Forall (λ c, ¬ issues token c ∧ ¬ revokes token c) cs →
     session_of (run_all cs d1) token = session_of d1 token) ∧
  (∀ d2 req,
     authorization req = bearer token →
     session_of d2 token = session_of d1 token →
     ∃ d3,
       serve (token_required api_logout) req d2 = (jsonify ok_true 200, d3) ∧
       ∀ cs req',
         Forall (λ c, ¬ issues token c) cs →
         authorization req' = bearer token →
         authenticate req' (run_all cs d3) = Ret (inl invalid_token)).
Proof.
  intros Hc. apply create_token_inv in Hc as (m & Hm & Htok & ->).
  assert (session_of (save_sessions (JObj (<[token:=new_session e username]> m)) d)
            token = Ret (new_session e username)) as Hs.
  { rewrite session_of_save_sessions. by rewrite lookup_insert_eq. }
  assert (∀ d2 req, authorization req = bearer token →
            session_of d2 token = Ret (new_session e username) →
            authenticate req d2 = Ret (inr (JStr username))) as Hauth.
  { intros d2 req Hb H2. rewrite (authenticate_bearer token) by done.
    rewrite H2. reflexivity. }
  split; [|split].
  - intros d2 req Hb H2. apply Hauth; [done|]. by rewrite H2.
  - intros cs Hcs. by apply run_all_session.
  - intros d2 req Hb H2. rewrite Hs in H2.
    pose proof H2 as H2'. apply session_of_obj in H2' as (m2 & Hm2 & Hl).
    exists (save_sessions (JObj (delete token m2)) d2). split.
    + unfold serve, token_required. rewrite (Hauth d2 req Hb H2), bind_ret.
      rewrite (api_logout_run token _ _ _ m2) by done.
      rewrite bool_decide_eq_true_2; [done|].
      destruct (m2 !! token); [eauto | discriminate].
    + intros cs req' Hcs Hb'.
      rewrite (authenticate_bearer token) by done.
      rewrite run_all_no_session; [done..|].
      rewrite session_of_save_sessions. by rewrite lookup_delete_eq.
Qed.

(** ** Tasks: what the routes share *)

Lemma serve_authenticated h req d u :
  authenticate req d = Ret (inr u) →
  serve (token_required h) req d =
    match h u req d with
    | Ret rd => rd
    | Raise _ => (internal_server_error, d)
    end.
Proof. intros H. unfold serve, token_required. by rewrite H. Qed.

Lemma authenticate_header req req' d :
  authorization req' = authorization req → authenticate req' d = authenticate req d.
Proof. unfold authenticate. by intros ->. Qed.

Lemma py_or_str s : py_or (JStr s) (JStr "") = JStr s.
Proof. unfold py_or; simpl. case_bool_decide; by subst. Qed.

Lemma list_of_obj d (u : string) lst :
  list_of d u = Ret (JArr lst) →
  ∃ m, load_todos_map d = Ret (JObj m) ∧ default (JArr []) (m !! u) = JArr lst.
Proof.
  unfold list_of. intros H. apply bind_inv in H as (tm & Ht & H).
  destruct tm; try discriminate. simpl in H. injection H as H. eauto.
Qed.

Lemma list_of_save m d (u : string) :
  list_of (save_todos_map (JObj m) d) u = Ret (default (JArr []) (m !! u)).
Proof. unfold list_of. by rewrite load_todos_save. Qed.

Lemma list_of_load m d (u : string) :
  load_todos_map d = Ret (JObj m) → list_of d u = Ret (default (JArr []) (m !! u)).
Proof. unfold list_of. by intros ->. Qed.

(** Writing the list of [u] leaves the list of every other user. *)
Lemma list_of_save_other m d (u u' : string) v :
  load_todos_map d = Ret (JObj m) → u' ≠ u →
  list_of (save_todos_map (JObj (<[u := v]> m)) d) u' = list_of d u'.
Proof.
  intros Hm Hne. rewrite list_of_save, (list_of_load m) by done.
  by rewrite lookup_insert_ne.
Qed.

Lemma list_of_save_same m d (u : string) l :
  list_of (save_todos_map (JObj (<[u := JArr l]> m)) d) u = Ret (JArr l).
Proof. rewrite list_of_save. by rewrite lookup_insert_eq. Qed.

Lemma api_get_tasks_run (u : json) req d v :
  list_of d u = Ret v → api_get_tasks u req d = Ret (jsonify [("todos"%string, v)] 200, d).
Proof.
  unfold list_of, api_get_tasks. intros H.
  apply bind_inv in H as (tm & -> & H). by rewrite bind_ret, H.
Qed.

(** ** Stripping *)

Lemma rstrip_empty s : rstrip s = ""%string ↔ blank s = true.
Proof.
  induction s as [|c s IH]; [done|]. cbn [rstrip blank].
  destruct (rstrip s) as [|c' r].
  - rewrite (proj1 IH eq_refl), andb_true_r. by destruct (py_isspace c).
  - split; [done|]. intros [_ H]%andb_true_iff. by apply IH in H.
Qed.

Lemma blank_lstrip s : blank (lstrip s) = blank s.
Proof.
  induction s as [|c s IH]; [done|]. cbn [lstrip].
  destruct (py_isspace c) eqn:E; [|done]. cbn [blank]. by rewrite E, IH.
Qed.

(** A string strips to the empty string exactly when it is all whitespace. *)
Lemma strip_empty s : strip s = ""%string ↔ blank s = true.
Proof. unfold strip. by rewrite rstrip_empty, blank_lstrip. Qed.

(** ** Create *)

Lemma api_create_task_run e (u : string) req d b title m lst :
  get_json req = JObj b →
  b !! "title" = Some (JStr title) →
  load_todos_map d = Ret (JObj m) →
  default (JArr []) (m !! u) = JArr lst →
  let task := new_task e (strip title)
                (default (JBool false) (b !! "done"))
                (default (JBool false) (b !! "important")) in
  api_create_task e u req d =
    if bool_decide (strip title = ""%string)
    then Ret (jsonify [("error"%string, JStr "title required")] 400, d)
    else Ret (jsonify [("ok"%string, JBool true); ("task"%string, task)] 201,
              save_todos_map (JObj (<[u := JArr (task :: lst)]> m)) d).
Proof.
  intros Hb Ht Hm Hl task. unfold api_create_task. rewrite Hb, py_or_obj.
  cbn [py_get dict_lookup]. rewrite !bind_ret, Ht. cbn [default id].
  rewrite py_or_str. cbn [py_strip]. rewrite bind_ret.
  case_bool_decide; [done|].
  rewrite Hm, !bind_ret. cbn [py_get dict_lookup]. rewrite !bind_ret, Hl.
  reflexivity.
Qed.

(** C2: for a user who is authenticated and supplies a string title, Create
    answers 400 exactly when the title is empty once stripped, that is when
    it is all whitespace, and then leaves the disk; otherwise it answers 201 with a task whose title is the
    stripped input and whose flags are false when not supplied, puts that
    task in front of the user's list and leaves the other users' lists, so
    that the List that follows answers the task first. *)
Theorem create_contract (e : env) (req : request) (d : disk) (u : string)
    (b : gmap string json) (title : string) (lst : list json) :
  authenticate req d = Ret (inr (JStr u)) →
  get_json req = JObj b →
  b !! "title" = Some (JStr title) →
  list_of d u = Ret (JArr lst) →
  let task := new_task e (strip title)
                (default (JBool false) (b !! "done"))
                (default (JBool false) (b !! "important")) in
  ∃ r d',
    serve (token_required (api_create_task e)) req d = (r, d') ∧
    (strip title = ""%string ↔ status r = 400) ∧
    (blank title = true ↔ status r = 400) ∧
    (strip title = ""%string →
       r = jsonify [("error"%string, JStr "title required")] 400 ∧ d' = d) ∧
    (strip title ≠ ""%string →
       r = jsonify [("ok"%string, JBool true); ("task"%string, task)] 201 ∧
       field "title" task = Some (JStr (strip title)) ∧
       (b !! "done" = None → field "done" task = Some (JBool false)) ∧
       (b !! "important" = None → field "important" task = Some (JBool false)) ∧
       list_of d' u = Ret (JArr (task :: lst)) ∧
       (∀ u' : string, u' ≠ u → list_of d' u' = list_of d u') ∧
       (∀ req', authorization req' = authorization req →
          serve (token_required api_get_tasks) req' d' =
            (jsonify [("todos"%string, JArr (task :: lst))] 200, d'))).
Proof.
  intros Ha Hb Ht Hl task.
  apply list_of_obj in Hl as (m & Hm & Hl).
  rewrite (serve_authenticated _ _ _ _ Ha).
  rewrite (api_create_task_run e u req d b title m lst) by done.
  fold task. case_bool_decide as Hs.
  - eexists _, _. split; [done|]. split; [done|].
    split; [by rewrite <- strip_empty|]. split; [done|]. done.
  - eexists _, _. split; [done|].
    assert (strip title = ""%string ↔ 201 = 400) as Hiff.
    { split; [done|]. discriminate. }
    split; [exact Hiff|]. split; [by rewrite <- strip_empty|]. split; [done|].
    intros _. split; [done|]. split; [done|].
    split. { intros Hd. subst task. unfold new_task. by rewrite Hd. }
    split. { intros Hi. subst task. unfold new_task. by rewrite Hi. }
    split. { apply list_of_save_same. }
    split. { intros u' Hu'. by apply list_of_save_other. }
    intros req' Hreq'.
    assert (authenticate req' (save_todos_map (JObj (<[u:=JArr (task :: lst)]> m)) d)
            = Ret (inr (JStr u))) as Ha'.
    { rewrite (authenticate_header req) by done. rewrite <- Ha.
      apply authenticate_ext, load_sessions_save_todos. }
    rewrite (serve_authenticated _ _ _ _ Ha').
    by rewrite (api_get_tasks_run _ _ _ (JArr (task :: lst)))
      by apply list_of_save_same.
Qed.

(** ** Update *)

Lemma has_id_obj task_id tm :
  has_id task_id (JObj tm) = true ↔ tm !! "id" = Some (JStr task_id).
Proof.
  unfold has_id, field. destruct (tm !! "id") as [i|]; [|by split].
  destruct i; simpl; try (by split).
  rewrite bool_decide_eq_true. split; [by intros -> | by intros [= ->]].
Qed.

Lemma has_id_field task_id t :
  has_id task_id t = true → field "id" t = Some (JStr task_id).
Proof.
  unfold has_id. destruct (field "id" t) as [i|]; [|done].
  destruct i; try done. cbn. by intros ->%bool_decide_eq_true.
Qed.

(** With pairwise distinct ids, the task of an id is the only one. *)
Lemma unique_id_post task_id (pre post : list json) tm :
  tm !! "id" = Some (JStr task_id) →
  NoDup (field "id" <$> pre ++ JObj tm :: post) →
  Forall (λ x, has_id task_id x = false) post.
Proof.
  intros Htm Hnd. rewrite fmap_app, fmap_cons in Hnd.
  apply NoDup_app in Hnd as (_ & _ & Hnd). apply NoDup_cons in Hnd as [Hnotin _].
  apply Forall_forall. intros x Hx.
  destruct (has_id task_id x) eqn:E; [|done].
  exfalso. apply Hnotin. cbn [field]. rewrite Htm, <- (has_id_field _ _ E).
  by apply list_elem_of_fmap_2.
Qed.

Lemma py_get_id_obj task_id tm :
  py_get (JObj tm) "id" JNull ≫= (λ i, Ret (py_eq_str i task_id))
  = Ret (has_id task_id (JObj tm)).
Proof.
  cbn [py_get dict_lookup]. rewrite !bind_ret. unfold has_id, field.
  by destruct (tm !! "id").
Qed.

Lemma first_match_split task_id (lst : list json) :
  Forall (λ x, is_obj x = true) lst →
  (∃ t, t ∈ lst ∧ has_id task_id t = true) →
  ∃ pre tm post,
    lst = pre ++ JObj tm :: post ∧
    Forall (λ x, is_obj x = true ∧ has_id task_id x = false) pre ∧
    tm !! "id" = Some (JStr task_id).
Proof.
  induction 1 as [|x lst Hx Hlst IH]; intros (t & Hin & Ht).
  { by apply elem_of_nil in Hin. }
  destruct (has_id task_id x) eqn:E.
  - destruct x as [| | | | |tm]; try discriminate.
    exists [], tm, lst. split; [done|]. split; [constructor|].
    by apply has_id_obj.
  - apply elem_of_cons in Hin as [->|Hin]; [congruence|].
    destruct IH as (pre & tm & post & -> & Hpre & Htm); [by eauto|].
    exists (x :: pre), tm, post. split; [done|]. split; [|done].
    by constructor.
Qed.

Lemma update_loop_split task_id body pre tm post :
  Forall (λ x, is_obj x = true ∧ has_id task_id x = false) pre →
  tm !! "id" = Some (JStr task_id) →
  update_loop task_id body (pre ++ JObj tm :: post) =
    (t' ← update_fields body (JObj tm); Ret (Some (pre ++ t' :: post, t'))).
Proof.
  intros Hpre Htm. induction Hpre as [|x pre [Hx Hn] _ IH].
  - cbn [app update_loop py_get dict_lookup]. rewrite !bind_ret, Htm.
    cbn [default id py_eq_str]. by rewrite bool_decide_eq_true_2 by done.
  - destruct x as [| | | | |xm]; try discriminate.
    cbn [app update_loop py_get dict_lookup]. rewrite !bind_ret.
    replace (py_eq_str (default JNull (xm !! "id")) task_id) with false.
    2:{ unfold has_id, field in Hn. by destruct (xm !! "id"). }
    rewrite IH. by destruct (update_fields body (JObj tm)).
Qed.

Lemma update_fields_obj b tm :
  update_fields (JObj b) (JObj tm) = Ret (JObj (patched b tm)).
Proof.
  unfold update_fields, patched. cbn [py_contains py_get dict_lookup].
  destruct (b !! "title") as [v1|]; destruct (b !! "done") as [v2|];
    destruct (b !! "important") as [v3|];
    repeat first
      [ rewrite bool_decide_eq_true_2 by eauto
      | rewrite bool_decide_eq_false_2 by (by intros [??])
      | progress cbn [default id py_setitem dump_key mbind result_bind] ];
    reflexivity.
Qed.

Lemma py_setitem_frame t (k k' : string) v t' :
  py_setitem t k v = Ret t' → k' ≠ k → field k' t' = field k' t.
Proof.
  destruct t; try discriminate. cbn. intros [= <-] Hk.
  cbn. by rewrite lookup_insert_ne.
Qed.

Lemma update_fields_frame body t t' k :
  update_fields body t = Ret t' → ¬ settable k → field k t' = field k t.
Proof.
  unfold update_fields, settable. intros H Hk.
  apply bind_inv in H as (c1 & _ & H). apply bind_inv in H as (t1 & H1 & H).
  apply bind_inv in H as (c2 & _ & H). apply bind_inv in H as (t2 & H2 & H).
  apply bind_inv in H as (c3 & _ & H). apply bind_inv in H as (t3 & H3 & H).
  injection H as <-.
  assert (field k t1 = field k t) as E1.
  { destruct c1; [|by injection H1 as <-].
    apply bind_inv in H1 as (? & _ & H1). apply bind_inv in H1 as (? & _ & H1).
    eapply py_setitem_frame; [done|]. intros ->. tauto. }
  assert (field k t2 = field k t1) as E2.
  { destruct c2; [|by injection H2 as <-].
    apply bind_inv in H2 as (? & _ & H2).
    eapply py_setitem_frame; [done|]. intros ->. tauto. }
  assert (field k t3 = field k t2) as E3.
  { destruct c3; [|by injection H3 as <-].
    apply bind_inv in H3 as (? & _ & H3).
    eapply py_setitem_frame; [done|]. intros ->. tauto. }
  congruence.
Qed.

Lemma update_loop_frame task_id body ts ts' t' k :
  update_loop task_id body ts = Ret (Some (ts', t')) →
  ¬ settable k → field k <$> ts' = field k <$> ts.
Proof.
  intros H Hk. revert ts' H. induction ts as [|t ts IH]; intros ts' H; [done|].
  cbn [update_loop] in H. apply bind_inv in H as (i & _ & H).
  destruct (py_eq_str i task_id).
  - apply bind_inv in H as (t1 & H1 & H). injection H as <- <-.
    cbn. f_equal. by eapply update_fields_frame.
  - apply bind_inv in H as (r & Hr & H). destruct r as [[ts0 t0]|]; [|done].
    injection H as <- <-. cbn. f_equal. by apply IH.
Qed.

Lemma api_update_task_found task_id (u : string) req d m pre tm post :
  load_todos_map d = Ret (JObj m) →
  default (JArr []) (m !! u) = JArr (pre ++ JObj tm :: post) →
  Forall (λ x, is_obj x = true ∧ has_id task_id x = false) pre →
  tm !! "id" = Some (JStr task_id) →
  api_update_task task_id u req d =
    (t' ← update_fields (py_or (get_json req) (JObj ∅)) (JObj tm);
     Ret (jsonify [("ok"%string, JBool true); ("task"%string, t')] 200,
          save_todos_map (JObj (<[u := JArr (pre ++ t' :: post)]> m)) d)).
Proof.
  intros Hm Hl Hpre Htm. unfold api_update_task. rewrite Hm, bind_ret.
  cbn [py_get dict_lookup]. rewrite !bind_ret, Hl. cbn [py_iter].
  rewrite bind_ret, update_loop_split by done.
  by destruct (update_fields _ _).
Qed.

Lemma api_update_task_frame task_id (u : string) req d r d' lst k :
  api_update_task task_id u req d = Ret (r, d') →
  list_of d u = Ret (JArr lst) →
  ¬ settable k →
  ∃ lst', list_of d' u = Ret (JArr lst') ∧ field k <$> lst' = field k <$> lst.
Proof.
  intros H Hl Hk. pose proof Hl as Hl'. apply list_of_obj in Hl' as (m & Hm & Hd).
  unfold api_update_task in H. rewrite Hm, bind_ret in H.
  cbn [py_get dict_lookup] in H. rewrite !bind_ret, Hd in H.
  cbn [py_iter] in H. rewrite bind_ret in H.
  apply bind_inv in H as (o & Ho & H). destruct o as [[ts' t']|].
  - cbn in H. injection H as <- <-. exists ts'. split.
    + apply list_of_save_same.
    + by eapply update_loop_frame.
  - injection H as <- <-. by exists lst.
Qed.

(** C4: Update leaves the "id" and "createdAt" of every task of the list as
    they were, whatever the patch and whatever it answers; and with the patch
    {done: true} and an id that a task of the list carries, it answers 200,
    sets "done" to true in the task of that id (the first in list order, the
    only one when the ids of the list are pairwise distinct) and changes
    nothing else in that task, in the other tasks of the list or in the lists
    of the other users. *)
Theorem update_frame (task_id : string) (req : request) (d : disk) (u : string)
    (lst : list json) :
  authenticate req d = Ret (inr (JStr u)) →
  list_of d u = Ret (JArr lst) →
  (∃ lst',
     list_of (serve (token_required (api_update_task task_id)) req d).2 u
       = Ret (JArr lst') ∧
     field "id" <$> lst' = field "id" <$> lst ∧
     field "createdAt" <$> lst' = field "createdAt" <$> lst) ∧
  (Forall (λ x, is_obj x = true) lst →
   (∃ t, t ∈ lst ∧ has_id task_id t = true) →
   get_json req = JObj {[ "done"%string := JBool true ]} →
   ∃ pre tm post d',
     lst = pre ++ JObj tm :: post ∧
     Forall (λ x, has_id task_id x = false) pre ∧
     tm !! "id" = Some (JStr task_id) ∧
     let t' := JObj (<["done"%string := JBool true]> tm) in
     serve (token_required (api_update_task task_id)) req d =
       (jsonify [("ok"%string, JBool true); ("task"%string, t')] 200, d') ∧
     list_of d' u = Ret (JArr (pre ++ t' :: post)) ∧
     field "title" t' = tm !! "title" ∧
     field "important" t' = tm !! "important" ∧
     field "id" t' = tm !! "id" ∧
     field "createdAt" t' = tm !! "createdAt" ∧
     (∀ k : string, k ≠ "done"%string → field k t' = tm !! k) ∧
     (NoDup (field "id" <$> lst) →
        Forall (λ x, has_id task_id x = false) post) ∧
     (∀ u' : string, u' ≠ u → list_of d' u' = list_of d u')).
Proof.
  intros Ha Hl. split.
  - rewrite (serve_authenticated _ _ _ _ Ha).
    destruct (api_update_task task_id u req d) as [[r d']|] eqn:E; cbn [snd].
    + destruct (api_update_task_frame _ _ _ _ _ _ _ "id" E Hl) as (l1 & Hl1 & E1).
      { unfold settable. by intros [|[|]]. }
      destruct (api_update_task_frame _ _ _ _ _ _ _ "createdAt" E Hl)
        as (l2 & Hl2 & E2).
      { unfold settable. by intros [|[|]]. }
      rewrite Hl1 in Hl2. injection Hl2 as <-. by exists l1.
    + by exists lst.
  - intros Hobj Hin Hb.
    destruct (first_match_split task_id lst Hobj Hin)
      as (pre & tm & post & -> & Hpre & Htm).
    apply list_of_obj in Hl as (m & Hm & Hd).
    exists pre, tm, post. eexists.
    split; [done|]. split; [by eapply Forall_impl; [done|]; intros ? []|].
    split; [done|]. cbn zeta.
    rewrite (serve_authenticated _ _ _ _ Ha).
    rewrite (api_update_task_found task_id u req d m pre tm post) by done.
    rewrite Hb, py_or_obj, update_fields_obj.
    replace (patched {["done"%string := JBool true]} tm)
      with (<["done"%string := JBool true]> tm) by done.
    rewrite bind_ret. split; [done|].
    split; [apply list_of_save_same|].
    cbn [field]. rewrite !lookup_insert_ne by done.
    repeat (split; [done|]).
    split; [by intros k Hk; rewrite lookup_insert_ne|].
    split; [by apply unique_id_post|].
    intros u' Hu'. by apply list_of_save_other.
Qed.

Lemma patched_title b tm v :
  b !! "title" = Some v → patched b tm !! "title" = Some v.
Proof.
  intros Hb. unfold patched. rewrite Hb.
  destruct (b !! "done"), (b !! "important");
    rewrite ?lookup_insert_ne by done; by rewrite lookup_insert_eq.
Qed.

(** C9: when the patch carries the key "title" and a task of the list has
    the id, Update answers 200 and the first task of that id is stored with
    the given title as it is, whatever JSON value that is: the empty string
    and null are stored like any other. *)
Theorem update_title_unvalidated (task_id : string) (req : request) (d : disk)
    (u : string) (lst : list json) (b : gmap string json) (v : json) :
  authenticate req d = Ret (inr (JStr u)) →
  list_of d u = Ret (JArr lst) →
  Forall (λ x, is_obj x = true) lst →
  (∃ t, t ∈ lst ∧ has_id task_id t = true) →
  get_json req = JObj b →
  b !! "title" = Some v →
  ∃ pre tm post d',
    lst = pre ++ JObj tm :: post ∧
    Forall (λ x, has_id task_id x = false) pre ∧
    tm !! "id" = Some (JStr task_id) ∧
    let t' := JObj (patched b tm) in
    serve (token_required (api_update_task task_id)) req d =
      (jsonify [("ok"%string, JBool true); ("task"%string, t')] 200, d') ∧
    field "title" t' = Some v ∧
    list_of d' u = Ret (JArr (pre ++ t' :: post)) ∧
    (∀ req', authorization req' = authorization req →
       serve (token_required api_get_tasks) req' d' =
         (jsonify [("todos"%string, JArr (pre ++ t' :: post))] 200, d')).
Proof.
  intros Ha Hl Hobj Hin Hb Hv.
  destruct (first_match_split task_id lst Hobj Hin)
    as (pre & tm & post & -> & Hpre & Htm).
  apply list_of_obj in Hl as (m & Hm & Hd).
  exists pre, tm, post. eexists.
  split; [done|]. split; [by eapply Forall_impl; [done|]; intros ? []|].
  split; [done|]. cbn zeta.
  rewrite (serve_authenticated _ _ _ _ Ha).
  rewrite (api_update_task_found task_id u req d m pre tm post) by done.
  rewrite Hb, py_or_obj, update_fields_obj, bind_ret.
  split; [done|]. split; [by apply patched_title|].
  split; [apply list_of_save_same|].
  intros req' Hreq'.
  rewrite (serve_authenticated _ _ _ (JStr u)).
  - by rewrite (api_get_tasks_run _ _ _ (JArr (pre ++ JObj (patched b tm) :: post)))
      by apply list_of_save_same.
  - rewrite (authenticate_header req) by done. rewrite <- Ha.
    apply authenticate_ext, load_sessions_save_todos.
Qed.

(** ** Delete *)

Lemma without_id_objs task_id (ts : list json) :
  Forall (λ x, is_obj x = true) ts →
  without_id task_id ts = Ret (filter (λ t, has_id task_id t = false) ts).
Proof.
  induction 1 as [|t ts Ht _ IH]; [done|].
  destruct t as [| | | | |tm]; try discriminate.
  cbn [without_id py_get dict_lookup]. rewrite !bind_ret, IH, bind_ret.
  rewrite filter_cons.
  replace (py_eq_str (default JNull (tm !! "id")) task_id)
    with (has_id task_id (JObj tm)).
  2:{ unfold has_id, field. by destruct (tm !! "id"). }
  destruct (has_id task_id (JObj tm)); by case_decide.
Qed.

(** C5: on a list of tasks (JSON objects) Delete always answers 200 ok; it
    keeps, in their order, exactly the tasks that do not carry the id, so a
    list without that id is left as it is; the lists of the other users are
    not touched. *)
Theorem delete_contract (task_id : string) (req : request) (d : disk) (u : string)
    (lst : list json) :
  authenticate req d = Ret (inr (JStr u)) →
  list_of d u = Ret (JArr lst) →
  Forall (λ x, is_obj x = true) lst →
  let kept := filter (λ t, has_id task_id t = false) lst in
  ∃ d',
    serve (token_required (api_delete_task task_id)) req d = (jsonify ok_true 200, d') ∧
    list_of d' u = Ret (JArr kept) ∧
    ((∀ t, t ∈ lst → has_id task_id t = false) → kept = lst) ∧
    kept `sublist_of` lst ∧
    (∀ t, t ∈ kept ↔ t ∈ lst ∧ has_id task_id t = false) ∧
    (∀ u' : string, u' ≠ u → list_of d' u' = list_of d u').
Proof.
  intros Ha Hl Hobj kept. apply list_of_obj in Hl as (m & Hm & Hd).
  exists (save_todos_map (JObj (<[u := JArr kept]> m)) d).
  split; [|split; [|split; [|split; [|split]]]].
  - rewrite (serve_authenticated _ _ _ _ Ha). unfold api_delete_task.
    rewrite Hm, bind_ret. cbn [py_get dict_lookup]. rewrite !bind_ret, Hd.
    cbn [py_iter]. rewrite bind_ret, without_id_objs by done. reflexivity.
  - apply list_of_save_same.
  - intros Hno. subst kept. clear -Hno. induction lst as [|t lst IH]; [done|].
    rewrite filter_cons. rewrite decide_True by (apply Hno; left).
    f_equal. apply IH. intros t' Ht'. apply Hno. by right.
  - apply sublist_filter.
  - intros t. subst kept. rewrite list_elem_of_filter. tauto.
  - intros u' Hu'. by apply list_of_save_other.
Qed.

(** ** Export and Import *)

Lemma api_import_run (u : string) req d b m l :
  get_json req = JObj b →
  b !! "todos" = Some (JArr l) →
  load_todos_map d = Ret (JObj m) →
  api_import u req d =
    Ret (jsonify ok_true 200, save_todos_map (JObj (<[u := JArr l]> m)) d).
Proof.
  intros Hb Ht Hm. unfold api_import. rewrite Hb, py_or_obj.
  cbn [py_get dict_lookup]. rewrite !bind_ret, Ht. cbn [default id].
  by rewrite Hm.
Qed.

Lemma api_export_run e (u : string) req d v :
  list_of d u = Ret v →
  api_export e u req d =
    Ret (jsonify
           [("meta"%string,
             JObj (list_to_map [("user"%string, JStr u);
                                ("exportedAt"%string, JStr (utcnow_iso e))]));
            ("todos"%string, v)] 200, d).
Proof.
  unfold list_of, api_export. intros H.
  apply bind_inv in H as (tm & -> & H). by rewrite bind_ret, H.
Qed.

(** C6: Export answers the user's list under "todos" and leaves the disk;
    Import of a body whose "todos" is a list answers ok and makes that list,
    as it is, the user's list, whatever the list held before and whatever the
    new one holds; so Import of what Export answered leaves the user with
    the same tasks in the same order, and the other users with theirs. *)
Theorem export_import_round_trip (e : env) (req_e req_i : request) (d : disk)
    (u : string) (lst : list json) :
  authenticate req_e d = Ret (inr (JStr u)) →
  authorization req_i = authorization req_e →
  list_of d u = Ret (JArr lst) →
  ∃ r,
    serve (token_required (api_export e)) req_e d = (r, d) ∧
    status r = 200 ∧
    field "todos" (payload r) = Some (JArr lst) ∧
    (∀ b l,
       get_json req_i = JObj b → b !! "todos" = Some (JArr l) →
       ∃ d',
         serve (token_required api_import) req_i d = (jsonify ok_true 200, d') ∧
         list_of d' u = Ret (JArr l) ∧
         (∀ u' : string, u' ≠ u → list_of d' u' = list_of d u')) ∧
    (∀ b,
       get_json req_i = JObj b → b !! "todos" = field "todos" (payload r) →
       ∃ d',
         serve (token_required api_import) req_i d = (jsonify ok_true 200, d') ∧
         list_of d' u = list_of d u ∧
         (∀ u' : string, u' ≠ u → list_of d' u' = list_of d u')).
Proof.
  intros Ha Hh Hl. eexists. split.
  { rewrite (serve_authenticated _ _ _ _ Ha).
    by rewrite (api_export_run e u req_e d (JArr lst)). }
  split; [done|]. split; [done|].
  pose proof Hl as Hl'. apply list_of_obj in Hl' as (m & Hm & Hd).
  assert (∀ b l, get_json req_i = JObj b → b !! "todos" = Some (JArr l) →
    ∃ d', serve (token_required api_import) req_i d = (jsonify ok_true 200, d') ∧
          list_of d' u = Ret (JArr l) ∧
          (∀ u' : string, u' ≠ u → list_of d' u' = list_of d u')) as Himp.
  { intros b l Hb Ht. eexists. split.
    - rewrite (serve_authenticated _ _ _ (JStr u))
        by (by rewrite (authenticate_header req_e)).
      by rewrite (api_import_run u req_i d b m l).
    - split; [apply list_of_save_same|].
      intros u' Hu'. by apply list_of_save_other. }
  split; [done|].
  intros b Hb Ht. rewrite Hl. by apply (Himp b lst).
Qed.

(** ** Reorder *)

Lemma task_key_Some t k :
  task_key t = Some k →
  ∃ tm i, t = JObj tm ∧ tm !! "id" = Some i ∧ py_hash i = Ret k.
Proof.
  unfold task_key, field, key_of. destruct t as [| | | | |tm]; try done.
  destruct (tm !! "id") as [i|] eqn:Ei; [|done]. cbn.
  destruct (py_hash i) eqn:E; [|done]. intros [= ->]. by exists tm, i.
Qed.

Lemma id_to_task_spec (ts : list json) (acc : gmap pykey json) :
  Forall (λ t, is_Some (task_key t)) ts →
  ∃ m, id_to_task ts acc = Ret m ∧
       ∀ k, m !! k = match last_with k ts with
                     | Some t => Some t
                     | None => acc !! k
                     end.
Proof.
  intros H. revert acc. induction H as [|t ts [kt Hk] _ IH]; intros acc.
  { by exists acc. }
  pose proof Hk as Hk'. apply task_key_Some in Hk' as (tm & i & -> & Hi & Hh).
  destruct (IH (<[kt := JObj tm]> acc)) as (m & Hm & Hlook).
  exists m. split.
  - cbn [id_to_task py_getitem]. by rewrite Hi, bind_ret, Hh, bind_ret.
  - intros k. rewrite Hlook. cbn [last_with].
    destruct (last_with k ts); [done|]. rewrite Hk.
    case_decide as E.
    + injection E as ->. by rewrite lookup_insert_eq.
    + rewrite lookup_insert_ne; [done|]. by intros ->.
Qed.

Lemma in_order_spec (m : gmap pykey json) (order : list json) :
  Forall (λ i, is_Some (key_of i)) order →
  in_order m order = Ret (omap (λ i, k ← key_of i; m !! k) order).
Proof.
  induction 1 as [|i order [k Hk] _ IH]; [done|].
  assert (py_hash i = Ret k) as E.
  { unfold key_of in Hk. destruct (py_hash i); by simplify_eq. }
  cbn [in_order omap list_omap]. rewrite E, bind_ret, IH, bind_ret, Hk. cbn.
  by destruct (m !! k).
Qed.

Lemma last_with_Some k lst t :
  last_with k lst = Some t → t ∈ lst ∧ task_key t = Some k.
Proof.
  induction lst as [|x lst IH]; [done|]. cbn [last_with].
  destruct (last_with k lst) as [t'|].
  - intros [= ->]. destruct IH as [??]; [done|]. split; [by right | done].
  - case_decide; [|done]. intros [= ->]. split; [by left | done].
Qed.

(** With pairwise distinct ids, the tasks under a key are the last one. *)
Lemma filter_last_with k (lst : list json) :
  NoDup (task_key <$> lst) →
  filter (λ t, task_key t = Some k) lst = option_list (last_with k lst).
Proof.
  induction lst as [|t lst IH]; [done|].
  rewrite fmap_cons, NoDup_cons. intros [Hnotin Hnd].
  rewrite filter_cons, IH by done. cbn [last_with].
  case_decide as E.
  - destruct (last_with k lst) as [t'|] eqn:El; [|done].
    apply last_with_Some in El as [Hin Hk']. exfalso. apply Hnotin.
    rewrite E, <- Hk'. by apply list_elem_of_fmap_2.
  - by destruct (last_with k lst).
Qed.

Lemma reordered_spec_nodup (lst order : list json) :
  NoDup (task_key <$> lst) → reordered lst order = reorder_spec lst order.
Proof.
  intros Hnd. unfold reordered, reorder_spec.
  induction order as [|i order IH]; [done|].
  cbn [omap list_omap]. rewrite bind_cons, <- IH. clear IH.
  destruct (key_of i) as [k|] eqn:Ek; cbn [mbind option_bind].
  - rewrite (list_filter_iff _ (λ t, task_key t = Some k)).
    2:{ intros t. split; [by intros [_ ?] | eauto]. }
    rewrite filter_last_with by done. by destruct (last_with k lst).
  - replace (filter _ lst) with (@nil json); [done|].
    clear Hnd. induction lst as [|t lst IH]; [done|].
    rewrite filter_cons_False; [done | by intros [[] _]].
Qed.

(** C3, as the code has it: for a list of tasks that all carry an id and an
    order made of ids (JSON scalars), Reorder answers ok and replaces the
    user's list by the tasks the order names, in the order given, an id
    naming the last task that carries it: ids matching no task are dropped,
    tasks whose id is not in the order are dropped, an id given twice gives
    its task twice.  With pairwise distinct ids in the list this is exactly
    the tasks whose ids appear in the order.  The lists of the other users
    are not touched. *)
Theorem reorder_semantics (req : request) (d : disk) (u : string)
    (lst order : list json) (b : gmap string json) :
  authenticate req d = Ret (inr (JStr u)) →
  list_of d u = Ret (JArr lst) →
  Forall (λ t, is_Some (task_key t)) lst →
  get_json req = JObj b →
  b !! "order" = Some (JArr order) →
  Forall (λ i, is_Some (key_of i)) order →
  ∃ d',
    serve (token_required api_reorder) req d = (jsonify ok_true 200, d') ∧
    list_of d' u = Ret (JArr (reordered lst order)) ∧
    (∀ t, t ∈ reordered lst order →
       t ∈ lst ∧ ∃ i, i ∈ order ∧ is_Some (key_of i) ∧ task_key t = key_of i) ∧
    (NoDup (task_key <$> lst) → reordered lst order = reorder_spec lst order) ∧
    (∀ u' : string, u' ≠ u → list_of d' u' = list_of d u').
Proof.
  intros Ha Hl Hlst Hb Ho Hord. apply list_of_obj in Hl as (m & Hm & Hd).
  destruct (id_to_task_spec lst ∅ Hlst) as (idm & Hidm & Hlook).
  exists (save_todos_map (JObj (<[u := JArr (reordered lst order)]> m)) d).
  split; [|split; [|split; [|split]]].
  - rewrite (serve_authenticated _ _ _ _ Ha). unfold api_reorder.
    rewrite Hb, py_or_obj. cbn [py_get dict_lookup]. rewrite !bind_ret, Ho.
    cbn [default id]. rewrite Hm, !bind_ret. cbn [py_get dict_lookup].
    rewrite !bind_ret, Hd. cbn [py_iter].
    rewrite bind_ret, Hidm, bind_ret, in_order_spec, bind_ret by done.
    replace (omap (λ i, k ← key_of i; idm !! k) order)
      with (reordered lst order); [done|].
    unfold reordered. apply list_omap_ext, Forall_Forall2_diag, Forall_true.
    intros i. destruct (key_of i) as [k|]; [|done]. cbn.
    rewrite Hlook, lookup_empty. by destruct (last_with k lst).
  - apply list_of_save_same.
  - intros t Ht. unfold reordered in Ht.
    apply list_elem_of_omap in Ht as (i & Hi & Hf).
    destruct (key_of i) as [k|] eqn:Ek; [|done]. cbn in Hf.
    apply last_with_Some in Hf as [Hin Hk].
    split; [done|]. exists i. rewrite Ek. eauto.
  - apply reordered_spec_nodup.
  - intros u' Hu'. by apply list_of_save_other.
Qed.

(** ** Task ids *)

Lemma string_length_app (s t : string) :
  String.length (s +:+ t) = (String.length s + String.length t)%nat.
Proof. induction s as [|c s IH]; [done|]. simpl. f_equal. exact IH. Qed.

Lemma string_app_inj_length (s1 s2 t1 t2 : string) :
  String.length t1 = String.length t2 →
  s1 +:+ t1 = s2 +:+ t2 → s1 = s2 ∧ t1 = t2.
Proof.
  intros Hlen. revert s2. induction s1 as [|c s1 IH]; intros [|c2 s2] H.
  - done.
  - apply (f_equal String.length) in H.
    rewrite !string_length_app in H. simpl in H. lia.
  - apply (f_equal String.length) in H.
    rewrite !string_length_app in H. simpl in H. lia.
  - simpl in H. injection H as -> H. destruct (IH _ H) as [-> ->]. done.
Qed.

Lemma new_task_id_inj (e1 e2 : env) :
  String.length (token_hex4 e1) = String.length (token_hex4 e2) →
  new_task_id e1 = new_task_id e2 →
  time_ms e1 = time_ms e2 ∧ token_hex4 e1 = token_hex4 e2.
Proof.
  unfold new_task_id. intros Hlen H. apply (inj (String.append "id_")) in H.
  apply string_app_inj_length in H as [Hp Hh].
  - split; [by apply (inj pretty) | by injection Hh].
  - simpl. by f_equal.
Qed.

(** C8, as the code has it: two tasks that Create builds have different ids
    whenever the two calls read different milliseconds from the clock or
    draw different 8-character suffixes from the random source. *)
Theorem task_ids_distinct (e1 e2 : env) (title1 title2 : string)
    (dn1 im1 dn2 im2 : json) :
  String.length (token_hex4 e1) = 8%nat →
  String.length (token_hex4 e2) = 8%nat →
  time_ms e1 ≠ time_ms e2 ∨ token_hex4 e1 ≠ token_hex4 e2 →
  field "id" (new_task e1 title1 dn1 im1) = Some (JStr (new_task_id e1)) ∧
  field "id" (new_task e2 title2 dn2 im2) = Some (JStr (new_task_id e2)) ∧
  new_task_id e1 ≠ new_task_id e2.
Proof.
  intros H1 H2 Hne. split; [done|]. split; [done|].
  intros Heq. apply new_task_id_inj in Heq as [??]; [|congruence].
  destruct Hne; done.
Qed.

(** ** Boolean flags *)

Lemma patched_done b tm :
  patched b tm !! "done" =
    match b !! "done" with
    | Some v => Some (JBool (truthy v))
    | None => tm !! "done"
    end.
Proof.
  unfold patched.
  destruct (b !! "title"), (b !! "done"), (b !! "important");
    rewrite ?lookup_insert_ne by done; rewrite ?lookup_insert_eq; done.
Qed.

Lemma patched_important b tm :
  patched b tm !! "important" =
    match b !! "important" with
    | Some v => Some (JBool (truthy v))
    | None => tm !! "important"
    end.
Proof.
  unfold patched.
  destruct (b !! "title"), (b !! "done"), (b !! "important");
    rewrite ?lookup_insert_eq; rewrite ?lookup_insert_ne by done; done.
Qed.

Lemma patched_bool_flags b tm :
  bool_flags (JObj tm) → bool_flags (JObj (patched b tm)).
Proof.
  unfold bool_flags. cbn [field]. rewrite patched_done, patched_important.
  intros [[x Hx] [y Hy]]. split.
  - destruct (b !! "done"); eauto.
  - destruct (b !! "important"); eauto.
Qed.

Lemma new_task_bool_flags e title dn im : bool_flags (new_task e title dn im).
Proof. split; eexists; reflexivity. Qed.

(** C10: the task that Create stores has for "done" and "important" the
    truth values of what the body gives (false when it gives nothing),
    whatever JSON values these are, and the answer is 201 all the same; the
    task that Update stores has for each flag the patch names the truth
    value of what the patch gives; so both keep a list whose tasks all have
    boolean flags that way.  "no" counts as true and 0 as false.  Import
    stores a task with a flag that is not a boolean as it is. *)
Theorem flags_coerced :
  (∀ (e : env) (req : request) (d : disk) (u : string) (b : gmap string json)
     (title : string) (lst : list json),
     authenticate req d = Ret (inr (JStr u)) →
     get_json req = JObj b →
     b !! "title" = Some (JStr title) →
     strip title ≠ ""%string →
     list_of d u = Ret (JArr lst) →
     ∃ task d',
       serve (token_required (api_create_task e)) req d =
         (jsonify [("ok"%string, JBool true); ("task"%string, task)] 201, d') ∧
       list_of d' u = Ret (JArr (task :: lst)) ∧
       field "done" task =
         Some (JBool (truthy (default (JBool false) (b !! "done")))) ∧
       field "important" task =
         Some (JBool (truthy (default (JBool false) (b !! "important")))) ∧
       (Forall bool_flags lst → Forall bool_flags (task :: lst))) ∧
  (∀ (task_id : string) (req : request) (d : disk) (u : string)
     (b : gmap string json) (lst : list json),
     authenticate req d = Ret (inr (JStr u)) →
     list_of d u = Ret (JArr lst) →
     Forall (λ x, is_obj x = true) lst →
     (∃ t, t ∈ lst ∧ has_id task_id t = true) →
     get_json req = JObj b →
     ∃ pre tm post d',
       lst = pre ++ JObj tm :: post ∧
       let t' := JObj (patched b tm) in
       serve (token_required (api_update_task task_id)) req d =
         (jsonify [("ok"%string, JBool true); ("task"%string, t')] 200, d') ∧
       list_of d' u = Ret (JArr (pre ++ t' :: post)) ∧
       (∀ v, b !! "done" = Some v → field "done" t' = Some (JBool (truthy v))) ∧
       (∀ v, b !! "important" = Some v →
          field "important" t' = Some (JBool (truthy v))) ∧
       (Forall bool_flags lst → Forall bool_flags (pre ++ t' :: post))) ∧
  (truthy (JStr "no") = true ∧ truthy (JNum 0) = false) ∧
  (∀ (req : request) (d : disk) (u : string) (lst : list json),
     authenticate req d = Ret (inr (JStr u)) →
     list_of d u = Ret (JArr lst) →
     get_json req =
       JObj {[ "todos"%string :=
                 JArr [JObj {[ "done"%string := JStr "no" ]}] ]} →
     ∃ d',
       serve (token_required api_import) req d = (jsonify ok_true 200, d') ∧
       list_of d' u = Ret (JArr [JObj {[ "done"%string := JStr "no" ]}]) ∧
       ¬ bool_flags (JObj {[ "done"%string := JStr "no" ]})).
Proof.
  split; [|split; [|split]].
  - intros e req d u b title lst Ha Hb Ht Hs Hl.
    apply list_of_obj in Hl as (m & Hm & Hd). eexists _, _.
    rewrite (serve_authenticated _ _ _ _ Ha).
    rewrite (api_create_task_run e u req d b title m lst) by done.
    rewrite bool_decide_eq_false_2 by done.
    split; [done|]. split; [apply list_of_save_same|].
    split; [done|]. split; [done|].
    intros Hall. constructor; [apply new_task_bool_flags | done].
  - intros task_id req d u b lst Ha Hl Hobj Hin Hb.
    destruct (first_match_split task_id lst Hobj Hin)
      as (pre & tm & post & -> & Hpre & Htm).
    apply list_of_obj in Hl as (m & Hm & Hd).
    exists pre, tm, post. eexists. split; [done|]. cbn zeta.
    rewrite (serve_authenticated _ _ _ _ Ha).
    rewrite (api_update_task_found task_id u req d m pre tm post) by done.
    rewrite Hb, py_or_obj, update_fields_obj, bind_ret.
    split; [done|]. split; [apply list_of_save_same|]. cbn [field].
    split; [by intros v Hv; rewrite patched_done, Hv|].
    split; [by intros v Hv; rewrite patched_important, Hv|].
    rewrite !Forall_app, !Forall_cons. intros (? & ? & ?).
    split; [done|]. split; [by apply patched_bool_flags | done].
  - done.
  - intros req d u lst Ha Hl Hb.
    apply list_of_obj in Hl as (m & Hm & Hd). eexists.
    rewrite (serve_authenticated _ _ _ _ Ha).
    rewrite (api_import_run u req d _ m
               [JObj {[ "done"%string := JStr "no" ]}]) by done.
    split; [done|]. split; [apply list_of_save_same|].
    intros [[x Hx] _]. cbn in Hx. rewrite lookup_singleton_eq in Hx. done.
Qed.

(** ** The properties on the concrete run *)

Lemma alice_authenticated body d :
  load_sessions d = load_sessions disk_alice →
  authenticate (as_alice body) d = Ret (inr (JStr "alice")).
Proof. intros H. rewrite (authenticate_ext disk_alice) by done. by vm_compute. Qed.

Lemma token_lifecycle_witness :
  authenticate (as_alice JNull) disk_alice = Ret (inr (JStr "alice")) ∧
  session_of
    (run_all [IssueToken env1 "bob"; GetTasks (as_alice JNull)] disk_alice)
    "tok-alice" = session_of disk_alice "tok-alice" ∧
  ∃ d3,
    serve (token_required api_logout) (as_alice JNull) disk_alice
      = (jsonify ok_true 200, d3) ∧
    authenticate (as_alice JNull)
      (run_all [IssueToken env1 "bob"; Logout (as_alice JNull)] d3)
      = Ret (inl invalid_token).
Proof.
  pose proof (token_lifecycle env0 "alice" "tok-alice" disk0 disk_alice)
    as (H1 & H2 & H3); [by vm_compute|].
  split; [by apply H1|]. split.
  - apply H2. repeat constructor; cbn; try tauto; by intros [=].
  - destruct (H3 disk_alice (as_alice JNull)) as (d3 & Hd3 & Hno); [done..|].
    exists d3. split; [done|]. apply Hno; [|done].
    repeat constructor; cbn; try tauto; by intros [=].
Defined.

Lemma disk_abc_list : list_of disk_abc "alice" = Ret (JArr [task_a; task_b; task_c]).
Proof. by vm_compute. Qed.

Lemma disk_abc_sessions : load_sessions disk_abc = load_sessions disk_alice.
Proof. by vm_compute. Qed.

Lemma disk_dup_list : list_of disk_dup "alice" = Ret (JArr [task_x1; task_x2]).
Proof. by vm_compute. Qed.

Lemma disk_dup_sessions : load_sessions disk_dup = load_sessions disk_alice.
Proof. by vm_compute. Qed.

Lemma abc_objects : Forall (λ x, is_obj x = true) [task_a; task_b; task_c].
Proof. by repeat constructor. Qed.

Lemma create_contract_witness :
  let req := as_alice (JObj {[ "title"%string := JStr "  Buy milk " ]}) in
  let task := new_task env0 "Buy milk" (JBool false) (JBool false) in
  ∃ d',
    serve (token_required (api_create_task env0)) req disk_abc =
      (jsonify [("ok"%string, JBool true); ("task"%string, task)] 201, d') ∧
    field "title" task = Some (JStr "Buy milk") ∧
    field "done" task = Some (JBool false) ∧
    field "important" task = Some (JBool false) ∧
    serve (token_required api_get_tasks) (as_alice JNull) d' =
      (jsonify [("todos"%string, JArr [task; task_a; task_b; task_c])] 200, d').
Proof.
  intros req task.
  destruct (create_contract env0 req disk_abc "alice"
              {[ "title"%string := JStr "  Buy milk " ]} "  Buy milk "
              [task_a; task_b; task_c])
    as (r & d' & Hs & _ & _ & _ & Hok).
  - apply alice_authenticated, disk_abc_sessions.
  - done.
  - done.
  - apply disk_abc_list.
  - destruct Hok as (-> & Ht & Hd & Hi & _ & _ & Hlist); [by vm_compute|].
    exists d'. split; [exact Hs|]. split; [exact Ht|].
    split; [by apply Hd|]. split; [by apply Hi|]. by apply Hlist.
Defined.

(** C3 fails as it is worded.  Two tasks under one id: the order that names
    the id gives the second task only, where the tasks whose ids appear in
    the order are both.  An order holding a list: Reorder raises and Flask
    answers 500 with the user's list as it was, where the wording has the
    list replaced by the empty one. *)
Lemma reorder_counterexample :
  (let req := as_alice (order_body [JStr "x"]) in
   authenticate req disk_dup = Ret (inr (JStr "alice")) ∧
   list_of disk_dup "alice" = Ret (JArr [task_x1; task_x2]) ∧
   list_of (serve (token_required api_reorder) req disk_dup).2 "alice"
     = Ret (JArr [task_x2]) ∧
   reorder_spec [task_x1; task_x2] [JStr "x"] = [task_x1; task_x2] ∧
   [task_x2] ≠ [task_x1; task_x2]) ∧
  (let req := as_alice (order_body [JArr []]) in
   authenticate req disk_abc = Ret (inr (JStr "alice")) ∧
   list_of disk_abc "alice" = Ret (JArr [task_a; task_b; task_c]) ∧
   serve (token_required api_reorder) req disk_abc
     = (internal_server_error, disk_abc) ∧
   reorder_spec [task_a; task_b; task_c] [JArr []] = [] ∧
   [task_a; task_b; task_c] ≠ []).
Proof. split; cbv zeta; repeat split; by vm_compute. Qed.

Lemma reorder_semantics_witness :
  (∃ d',
     serve (token_required api_reorder)
       (as_alice (order_body [JStr "b"; JStr "a"])) disk_abc
       = (jsonify ok_true 200, d') ∧
     list_of d' "alice" = Ret (JArr [task_b; task_a])) ∧
  (∃ d',
     serve (token_required api_reorder)
       (as_alice (order_body [JStr "a"; JStr "a"; JStr "zzz"])) disk_abc
       = (jsonify ok_true 200, d') ∧
     list_of d' "alice" = Ret (JArr [task_a; task_a])) ∧
  (∃ d',
     serve (token_required api_reorder)
       (as_alice (order_body [JStr "x"])) disk_dup
       = (jsonify ok_true 200, d') ∧
     list_of d' "alice" = Ret (JArr [task_x2])).
Proof.
  split; [|split].
  - destruct (reorder_semantics (as_alice (order_body [JStr "b"; JStr "a"]))
                disk_abc "alice" [task_a; task_b; task_c]
                [JStr "b"; JStr "a"] {[ "order"%string := JArr [JStr "b"; JStr "a"] ]})
      as (d' & Hs & Hl & _).
    + apply alice_authenticated, disk_abc_sessions.
    + apply disk_abc_list.
    + repeat (apply Forall_cons; split; [by eexists|]); done.
    + done.
    + done.
    + repeat (apply Forall_cons; split; [by eexists|]); done.
    + exists d'. split; [exact Hs | exact Hl].
  - destruct (reorder_semantics
                (as_alice (order_body [JStr "a"; JStr "a"; JStr "zzz"]))
                disk_abc "alice" [task_a; task_b; task_c]
                [JStr "a"; JStr "a"; JStr "zzz"]
                {[ "order"%string := JArr [JStr "a"; JStr "a"; JStr "zzz"] ]})
      as (d' & Hs & Hl & _).
    + apply alice_authenticated, disk_abc_sessions.
    + apply disk_abc_list.
    + repeat (apply Forall_cons; split; [by eexists|]); done.
    + done.
    + done.
    + repeat (apply Forall_cons; split; [by eexists|]); done.
    + exists d'. split; [exact Hs | exact Hl].
  - destruct (reorder_semantics (as_alice (order_body [JStr "x"]))
                disk_dup "alice" [task_x1; task_x2]
                [JStr "x"] {[ "order"%string := JArr [JStr "x"] ]})
      as (d' & Hs & Hl & _).
    + apply alice_authenticated, disk_dup_sessions.
    + apply disk_dup_list.
    + repeat (apply Forall_cons; split; [by eexists|]); done.
    + done.
    + done.
    + repeat (apply Forall_cons; split; [by eexists|]); done.
    + exists d'. split; [exact Hs | exact Hl].
Defined.

Lemma b_in_abc task_id :
  task_id = "b"%string →
  ∃ t, t ∈ [task_a; task_b; task_c] ∧ has_id task_id t = true.
Proof. intros ->. exists task_b. split; [set_solver | done]. Qed.

Lemma update_frame_witness :
  let req := as_alice (JObj {[ "done"%string := JBool true ]}) in
  (∃ lst',
     list_of (serve (token_required (api_update_task "b")) req disk_abc).2 "alice"
       = Ret (JArr lst') ∧
     field "id" <$> lst' = [Some (JStr "a"); Some (JStr "b"); Some (JStr "c")]) ∧
  (∃ pre tm post d',
     [task_a; task_b; task_c] = pre ++ JObj tm :: post ∧
     tm !! "id" = Some (JStr "b") ∧
     serve (token_required (api_update_task "b")) req disk_abc =
       (jsonify [("ok"%string, JBool true);
                 ("task"%string, JObj (<["done"%string := JBool true]> tm))] 200,
        d') ∧
     list_of d' "alice"
       = Ret (JArr (pre ++ JObj (<["done"%string := JBool true]> tm) :: post))).
Proof.
  intros req.
  destruct (update_frame "b" req disk_abc "alice" [task_a; task_b; task_c])
    as [(lst' & Hl' & Hid & _) H].
  - apply alice_authenticated, disk_abc_sessions.
  - apply disk_abc_list.
  - split; [by exists lst'|].
    destruct H as (pre & tm & post & d' & Hsplit & _ & Htm & Hs & Hl & _).
    + apply abc_objects.
    + by apply b_in_abc.
    + done.
    + by exists pre, tm, post, d'.
Defined.

Lemma delete_contract_witness :
  (∃ d',
     serve (token_required (api_delete_task "zzz")) (as_alice JNull) disk_abc
       = (jsonify ok_true 200, d') ∧
     list_of d' "alice" = Ret (JArr [task_a; task_b; task_c])) ∧
  (∃ d',
     serve (token_required (api_delete_task "b")) (as_alice JNull) disk_abc
       = (jsonify ok_true 200, d') ∧
     list_of d' "alice" = Ret (JArr [task_a; task_c])) ∧
  (∃ d',
     serve (token_required (api_delete_task "x")) (as_alice JNull) disk_dup
       = (jsonify ok_true 200, d') ∧
     list_of d' "alice" = Ret (JArr [])).
Proof.
  split; [|split].
  - destruct (delete_contract "zzz" (as_alice JNull) disk_abc "alice"
                [task_a; task_b; task_c]) as (d' & Hs & Hl & _).
    + apply alice_authenticated, disk_abc_sessions.
    + apply disk_abc_list.
    + apply abc_objects.
    + exists d'. split; [exact Hs | exact Hl].
  - destruct (delete_contract "b" (as_alice JNull) disk_abc "alice"
                [task_a; task_b; task_c]) as (d' & Hs & Hl & _).
    + apply alice_authenticated, disk_abc_sessions.
    + apply disk_abc_list.
    + apply abc_objects.
    + exists d'. split; [exact Hs | exact Hl].
  - destruct (delete_contract "x" (as_alice JNull) disk_dup "alice"
                [task_x1; task_x2]) as (d' & Hs & Hl & _).
    + apply alice_authenticated, disk_dup_sessions.
    + apply disk_dup_list.
    + by repeat constructor.
    + exists d'. split; [exact Hs | exact Hl].
Defined.

Lemma export_import_round_trip_witness :
  ∃ r d',
    serve (token_required (api_export env0)) (as_alice JNull) disk_abc
      = (r, disk_abc) ∧
    field "todos" (payload r) = Some (JArr [task_a; task_b; task_c]) ∧
    serve (token_required api_import)
      (as_alice (import_body [task_a; task_b; task_c])) disk_abc
      = (jsonify ok_true 200, d') ∧
    list_of d' "alice" = list_of disk_abc "alice".
Proof.
  destruct (export_import_round_trip env0 (as_alice JNull)
              (as_alice (import_body [task_a; task_b; task_c]))
              disk_abc "alice" [task_a; task_b; task_c])
    as (r & Hs & _ & Ht & _ & Hrt).
  - apply alice_authenticated, disk_abc_sessions.
  - done.
  - apply disk_abc_list.
  - destruct (Hrt {[ "todos"%string := JArr [task_a; task_b; task_c] ]})
      as (d' & Hi & Hl & _).
    + done.
    + by rewrite Ht.
    + by exists r, d'.
Defined.

(** C8 fails as it is worded.  Two Create calls that read the same
    millisecond and draw the same suffix give their tasks the same id, and
    both tasks are stored. *)
Lemma create_id_collision :
  let req1 := as_alice (JObj {[ "title"%string := JStr "one" ]}) in
  let req2 := as_alice (JObj {[ "title"%string := JStr "two" ]}) in
  let t1 := new_task env0 "one" (JBool false) (JBool false) in
  let t2 := new_task env0 "two" (JBool false) (JBool false) in
  let d1 := run (CreateTask env0 req1) disk_alice in
  let d2 := run (CreateTask env0 req2) d1 in
  String.length (token_hex4 env0) = 8%nat ∧
  (serve (token_required (api_create_task env0)) req1 disk_alice).1
    = jsonify [("ok"%string, JBool true); ("task"%string, t1)] 201 ∧
  (serve (token_required (api_create_task env0)) req2 d1).1
    = jsonify [("ok"%string, JBool true); ("task"%string, t2)] 201 ∧
  list_of d2 "alice" = Ret (JArr [t2; t1]) ∧
  t1 ≠ t2 ∧
  field "id" t1 = Some (JStr "id_1700000000000_deadbeef") ∧
  field "id" t2 = Some (JStr "id_1700000000000_deadbeef").
Proof.
  cbv zeta. repeat split; by vm_compute.
Qed.

Lemma task_ids_distinct_witness :
  new_task_id env0 ≠ new_task_id env1 ∧
  new_task_id env0 = "id_1700000000000_deadbeef"%string ∧
  new_task_id env1 = "id_1700000000000_0badcafe"%string.
Proof.
  split; [|by vm_compute].
  apply (task_ids_distinct env0 env1 "one" "two"
           (JBool false) (JBool false) (JBool false) (JBool false));
    [reflexivity | reflexivity | right; by vm_compute].
Defined.

Lemma update_title_unvalidated_witness :
  (∃ pre tm post d',
     [task_a; task_b; task_c] = pre ++ JObj tm :: post ∧
     tm !! "id" = Some (JStr "b") ∧
     let t' := JObj (patched {[ "title"%string := JStr "" ]} tm) in
     serve (token_required (api_update_task "b"))
       (as_alice (JObj {[ "title"%string := JStr "" ]})) disk_abc =
       (jsonify [("ok"%string, JBool true); ("task"%string, t')] 200, d') ∧
     field "title" t' = Some (JStr "") ∧
     list_of d' "alice" = Ret (JArr (pre ++ t' :: post))) ∧
  (∃ pre tm post d',
     [task_a; task_b; task_c] = pre ++ JObj tm :: post ∧
     tm !! "id" = Some (JStr "b") ∧
     let t' := JObj (patched {[ "title"%string := JNull ]} tm) in
     serve (token_required (api_update_task "b"))
       (as_alice (JObj {[ "title"%string := JNull ]})) disk_abc =
       (jsonify [("ok"%string, JBool true); ("task"%string, t')] 200, d') ∧
     field "title" t' = Some JNull ∧
     list_of d' "alice" = Ret (JArr (pre ++ t' :: post))).
Proof.
  split.
  - destruct (update_title_unvalidated "b"
                (as_alice (JObj {[ "title"%string := JStr "" ]})) disk_abc
                "alice" [task_a; task_b; task_c]
                {[ "title"%string := JStr "" ]} (JStr ""))
      as (pre & tm & post & d' & Hsplit & _ & Htm & Hs & Ht & Hl & _).
    + apply alice_authenticated, disk_abc_sessions.
    + apply disk_abc_list.
    + apply abc_objects.
    + by apply b_in_abc.
    + done.
    + done.
    + by exists pre, tm, post, d'.
  - destruct (update_title_unvalidated "b"
                (as_alice (JObj {[ "title"%string := JNull ]})) disk_abc
                "alice" [task_a; task_b; task_c]
                {[ "title"%string := JNull ]} JNull)
      as (pre & tm & post & d' & Hsplit & _ & Htm & Hs & Ht & Hl & _).
    + apply alice_authenticated, disk_abc_sessions.
    + apply disk_abc_list.
    + apply abc_objects.
    + by apply b_in_abc.
    + done.
    + done.
    + by exists pre, tm, post, d'.
Defined.

Lemma flags_coerced_witness :
  (∃ task d',
     serve (token_required (api_create_task env0))
       (as_alice (JObj (<["title"%string := JStr "t"]>
                          (<["done"%string := JStr "no"]>
                             {[ "important"%string := JNum 0 ]})))) disk_abc
       = (jsonify [("ok"%string, JBool true); ("task"%string, task)] 201, d') ∧
     field "done" task = Some (JBool true) ∧
     field "important" task = Some (JBool false)) ∧
  (∃ pre tm post d',
     [task_a; task_b; task_c] = pre ++ JObj tm :: post ∧
     let b := {[ "done"%string := JStr "no" ]} in
     serve (token_required (api_update_task "b")) (as_alice (JObj b)) disk_abc
       = (jsonify [("ok"%string, JBool true);
                   ("task"%string, JObj (patched b tm))] 200, d') ∧
     field "done" (JObj (patched b tm)) = Some (JBool true)) ∧
  (∃ d',
     serve (token_required api_import)
       (as_alice (import_body [JObj {[ "done"%string := JStr "no" ]}])) disk_abc
       = (jsonify ok_true 200, d') ∧
     list_of d' "alice" = Ret (JArr [JObj {[ "done"%string := JStr "no" ]}])).
Proof.
  destruct flags_coerced as (Hc & Hu & _ & Hi).
  split; [|split].
  - destruct (Hc env0
                (as_alice (JObj (<["title"%string := JStr "t"]>
                                   (<["done"%string := JStr "no"]>
                                      {[ "important"%string := JNum 0 ]}))))
                disk_abc "alice"
                (<["title"%string := JStr "t"]>
                   (<["done"%string := JStr "no"]>
                      {[ "important"%string := JNum 0 ]}))
                "t" [task_a; task_b; task_c])
      as (task & d' & Hs & _ & Hd & Him & _).
    + apply alice_authenticated, disk_abc_sessions.
    + done.
    + done.
    + by vm_compute.
    + apply disk_abc_list.
    + exists task, d'. split; [exact Hs|]. split; [exact Hd | exact Him].
  - destruct (Hu "b" (as_alice (JObj {[ "done"%string := JStr "no" ]}))
                disk_abc "alice" {[ "done"%string := JStr "no" ]}
                [task_a; task_b; task_c])
      as (pre & tm & post & d' & Hsplit & Hs & _ & Hd & _).
    + apply alice_authenticated, disk_abc_sessions.
    + apply disk_abc_list.
    + apply abc_objects.
    + by apply b_in_abc.
    + done.
    + exists pre, tm, post, d'. split; [exact Hsplit|]. split; [exact Hs|].
      by apply (Hd (JStr "no")).
  - destruct (Hi (as_alice (import_body [JObj {[ "done"%string := JStr "no" ]}]))
                disk_abc "alice" [task_a; task_b; task_c])
      as (d' & Hs & Hl & _).
    + apply alice_authenticated, disk_abc_sessions.
    + apply disk_abc_list.
    + done.
    + by exists d'.
Defined.

(** ** Further properties: the persistence layer *)



(** ** Further properties: the guard *)

(** X2: a request without the header, or whose header does not start with
    "Bearer ", is answered 401 "missing token", and one whose token has no
    session 401 "invalid token"; in both cases the view is not run and the
    disk is left as it was, whatever the view. *)
Theorem token_required_rejects (f : json → view) (req : request) (d : disk) :
  (String.prefix "Bearer " (default ""%string (authorization req)) = false →
     serve (token_required f) req d = (missing_token, d)) ∧
  (∀ token v,
     authorization req = bearer token →
     session_of d token = Ret v → truthy v = false →
     serve (token_required f) req d = (invalid_token, d)).
Proof.
  split.
  - intros H. unfold serve, token_required.
    by rewrite authenticate_no_bearer.
  - intros token v Hb Hs Hv. unfold serve, token_required.
    rewrite (authenticate_bearer token) by done. by rewrite Hs, bind_ret, Hv.
Qed.

Lemma token_required_rejects_witness :
  serve (token_required api_get_tasks)
    {| authorization := None; get_json := JNull |} disk_abc
    = (missing_token, disk_abc) ∧
  serve (token_required api_get_tasks)
    {| authorization := Some "bearer tok-alice"%string; get_json := JNull |}
    disk_abc = (missing_token, disk_abc) ∧
  serve (token_required (api_delete_task "a"))
    {| authorization := bearer "tok-mallory"; get_json := JNull |} disk_abc
    = (invalid_token, disk_abc).
Proof.
  split; [|split].
  - by apply (token_required_rejects api_get_tasks).
  - by apply (token_required_rejects api_get_tasks).
  - by apply (proj2 (token_required_rejects (api_delete_task "a")
                       {| authorization := bearer "tok-mallory";
                          get_json := JNull |} disk_abc)
                "tok-mallory" JNull).
Defined.

Lemma authenticate_inv (req : request) (d : disk) (u : json) :
  authenticate req d = Ret (inr u) →
  ∃ token s,
    authorization req = bearer token ∧
    session_of d token = Ret s ∧
    truthy s = true ∧
    py_getitem s "username" = Ret u.
Proof.
  intros H.
  destruct (String.prefix "Bearer " (default ""%string (authorization req)))
    eqn:Hp.
  - apply prefix_bearer in Hp as [t Ht].
    assert (authorization req = bearer t) as Hb.
    { destruct (authorization req); [by simplify_eq/= | by destruct t]. }
    rewrite (authenticate_bearer t) in H by done.
    apply bind_inv in H as (s & Hs & H). exists t, s.
    destruct (truthy s); [|done]. cbn [negb] in H.
    apply bind_inv in H as (u' & Hu & H). by injection H as <-.
  - by rewrite authenticate_no_bearer in H.
Qed.

(** X3: the guard lets a request through only with a header "Bearer "
    followed by a token whose session is in the sessions document, and the
    user it binds is the "username" of that session. *)
Theorem authenticate_sound (req : request) (d : disk) (u : json) :
  authenticate req d = Ret (inr u) →
  ∃ token s,
    authorization req = bearer token ∧
    session_of d token = Ret s ∧
    truthy s = true ∧
    py_getitem s "username" = Ret u.
Proof. apply authenticate_inv. Qed.

Lemma authenticate_sound_witness :
  ∃ token s,
    authorization (as_alice JNull) = bearer token ∧
    session_of disk_abc token = Ret s ∧
    truthy s = true ∧
    py_getitem s "username" = Ret (JStr "alice").
Proof.
  apply (authenticate_sound (as_alice JNull) disk_abc).
  apply alice_authenticated, disk_abc_sessions.
Defined.

(** X4: a task route never logs anyone in or out: after any call to one,
    every request authenticates as it did before. *)
Theorem task_calls_keep_sessions (c : call) (d : disk) (req : request) :
  task_call c →
  authenticate req (run c d) = authenticate req d.
Proof.
  intros Hc. apply authenticate_ext.
  destruct c; try done; cbn [run]; apply serve_keeps_sessions.
  - apply api_get_tasks_keeps_sessions.
  - apply api_create_task_keeps_sessions.
  - apply api_update_task_keeps_sessions.
  - apply api_delete_task_keeps_sessions.
  - apply api_reorder_keeps_sessions.
  - apply api_export_keeps_sessions.
  - apply api_import_keeps_sessions.
Qed.

Lemma task_calls_keep_sessions_witness :
  authenticate (as_alice JNull)
    (run (Import (as_alice (import_body []))) disk_abc)
  = authenticate (as_alice JNull) disk_abc.
Proof. by apply task_calls_keep_sessions. Defined.

(** ** Further properties: what a task route writes *)

Lemma py_setitem_obj_inv m k v y :
  py_setitem (JObj m) k v = Ret y →
  ∃ s, dump_key k = Ret s ∧ y = JObj (<[s := v]> m).
Proof.
  cbn [py_setitem]. intros H. apply bind_inv in H as (s & Hs & H).
  injection H as <-. eauto.
Qed.

(** The steps that end the inversion of a task route on a todos document
    that is a mapping. *)
Ltac writes_inv :=
  repeat match goal with
  | H : ?a = Ret _, H' : ?a = Ret _ |- _ => rewrite H in H'; injection H' as <-
  | H : py_insert0 ?x _ = Ret _ |- _ =>
      destruct x; try discriminate H; injection H as <-
  | H : py_setitem (JObj _) _ _ = Ret _ |- _ =>
      apply py_setitem_obj_inv in H as (? & ? & ->)
  end;
  first [ by left | right; by repeat eexists ].

Lemma api_get_tasks_writes_list : writes_list api_get_tasks.
Proof.
  intros u req d r d' m Hm H. unfold api_get_tasks in H. view_inv H. by left.
Qed.

Lemma api_export_writes_list e : writes_list (api_export e).
Proof.
  intros u req d r d' m Hm H. unfold api_export in H. view_inv H. by left.
Qed.

Lemma api_create_task_writes_list e : writes_list (api_create_task e).
Proof.
  intros u req d r d' m Hm H. unfold api_create_task in H. cbv zeta in H.
  view_inv H; writes_inv.
Qed.

Lemma api_update_task_writes_list i : writes_list (api_update_task i).
Proof.
  intros u req d r d' m Hm H. unfold api_update_task in H. cbv zeta in H.
  view_inv H; writes_inv.
Qed.

Lemma api_delete_task_writes_list i : writes_list (api_delete_task i).
Proof.
  intros u req d r d' m Hm H. unfold api_delete_task in H.
  view_inv H; writes_inv.
Qed.

Lemma api_reorder_writes_list : writes_list api_reorder.
Proof.
  intros u req d r d' m Hm H. unfold api_reorder in H. cbv zeta in H.
  view_inv H; writes_inv.
Qed.

Lemma api_import_writes_list : writes_list api_import.
Proof.
  intros u req d r d' m Hm H. unfold api_import in H. cbv zeta in H.
  view_inv H; writes_inv.
Qed.

Lemma run_task_call (c : call) :
  task_call c →
  ∃ h req,
    writes_list h ∧ keeps_sessions h ∧ request_of c = Some req ∧
    ∀ d, run c d = (serve (token_required h) req d).2 ∧
         answer c d = Some (serve (token_required h) req d).1.
Proof.
  destruct c; try done; intros _.
  - exists api_get_tasks, req.
    split; [apply api_get_tasks_writes_list|].
    split; [apply api_get_tasks_keeps_sessions|]. done.
  - exists (api_create_task e), req.
    split; [apply api_create_task_writes_list|].
    split; [apply api_create_task_keeps_sessions|]. done.
  - exists (api_update_task task_id), req.
    split; [apply api_update_task_writes_list|].
    split; [apply api_update_task_keeps_sessions|]. done.
  - exists (api_delete_task task_id), req.
    split; [apply api_delete_task_writes_list|].
    split; [apply api_delete_task_keeps_sessions|]. done.
  - exists api_reorder, req.
    split; [apply api_reorder_writes_list|].
    split; [apply api_reorder_keeps_sessions|]. done.
  - exists (api_export e), req.
    split; [apply api_export_writes_list|].
    split; [apply api_export_keeps_sessions|]. done.
  - exists api_import, req.
    split; [apply api_import_writes_list|].
    split; [apply api_import_keeps_sessions|]. done.
Qed.

Lemma serve_writes_list h req d m :
  writes_list h →
  load_todos_map d = Ret (JObj m) →
  (serve (token_required h) req d).2 = d ∨
  ∃ u s l,
    authenticate req d = Ret (inr u) ∧ dump_key u = Ret s ∧
    (serve (token_required h) req d).2
      = save_todos_map (JObj (<[s := JArr l]> m)) d.
Proof.
  intros Hh Hm. unfold serve, token_required.
  destruct (authenticate req d) as [[r|u]|]; cbn; try by left.
  destruct (h u req d) as [[r d']|] eqn:E; cbn; [|by left].
  destruct (Hh _ _ _ _ _ _ Hm E) as [->|(s & l & Hs & ->)]; [by left|].
  right. by exists u, s, l.
Qed.

(** X5: a task route called by one user leaves the list of every other user
    as it was, whatever the request holds and whatever the route answers. *)
Theorem task_routes_isolated (c : call) (req : request) (d : disk)
    (u u' : string) (v : json) :
  task_call c →
  request_of c = Some req →
  authenticate req d = Ret (inr (JStr u)) →
  u' ≠ u →
  list_of d u' = Ret v →
  list_of (run c d) u' = Ret v.
Proof.
  intros Hc Hreq Ha Hne Hl.
  destruct (run_task_call c Hc) as (h & req' & Hw & _ & Hreq' & Hrun).
  rewrite Hreq in Hreq'. injection Hreq' as <-.
  rewrite (proj1 (Hrun d)).
  unfold list_of in Hl. apply bind_inv in Hl as (tm & Htm & Hl).
  destruct tm as [| | | | |m]; try discriminate.
  destruct (serve_writes_list h req d m Hw Htm)
    as [->|(u0 & s & l & Ha' & Hs & ->)].
  - unfold list_of. by rewrite Htm.
  - rewrite Ha in Ha'. injection Ha' as <-. injection Hs as <-.
    rewrite list_of_save_other by done. unfold list_of. by rewrite Htm.
Qed.

Lemma task_routes_isolated_witness :
  list_of (run (Import (as_alice (import_body []))) disk_abc) "bob"
  = Ret (JArr []) ∧
  list_of (run (DeleteTask "a" (as_alice JNull)) disk_abc) "bob"
  = Ret (JArr []).
Proof.
  split.
  - apply (task_routes_isolated _ (as_alice (import_body [])) _ "alice");
      [done | done | | done | by vm_compute].
    apply alice_authenticated, disk_abc_sessions.
  - apply (task_routes_isolated _ (as_alice JNull) _ "alice");
      [done | done | | done | by vm_compute].
    apply alice_authenticated, disk_abc_sessions.
Defined.

Lemma wf_todos_save m s l d :
  (∀ k v, m !! k = Some v → ∃ l, v = JArr l) →
  wf_todos (save_todos_map (JObj (<[s := JArr l]> m)) d).
Proof.
  intros Hm. exists (<[s := JArr l]> m). split; [apply load_todos_save|].
  intros k v. destruct (decide (k = s)) as [->|Hk].
  - rewrite lookup_insert_eq. intros [= <-]. eauto.
  - rewrite lookup_insert_ne by done. apply Hm.
Qed.

Lemma logout_disk req d :
  (serve (token_required api_logout) req d).2 = d ∨
  ∃ x, (serve (token_required api_logout) req d).2 = save_sessions x d.
Proof.
  unfold serve, token_required.
  destruct (authenticate req d) as [[r|u]|]; cbn; try by left.
  destruct (api_logout u req d) as [[r d']|] eqn:E; cbn; [|by left].
  unfold api_logout in E. view_inv E; [right; eauto | by left].
Qed.

Lemma issue_disk e username d :
  run (IssueToken e username) d = d ∨
  ∃ x, run (IssueToken e username) d = save_sessions x d.
Proof.
  cbn [run]. destruct (create_token e username d) as [[t d1]|] eqn:E; [|by left].
  unfold create_token in E. view_inv E. right. eauto.
Qed.

Lemma run_wf_todos c d : wf_todos d → wf_todos (run c d).
Proof.
  intros (m & Hm & Hlists).
  assert (∀ x, wf_todos (save_sessions x d)) as Hss.
  { intros x. exists m. by rewrite load_todos_save_sessions. }
  assert (task_call c → wf_todos (run c d)) as Htask.
  { intros Hc.
    destruct (run_task_call c Hc) as (h & req & Hw & _ & _ & Hrun).
    rewrite (proj1 (Hrun d)).
    destruct (serve_writes_list h req d m Hw Hm)
      as [->|(u0 & s & l & _ & _ & ->)]; [by exists m|].
    by apply wf_todos_save. }
  destruct c; try (by apply Htask).
  - destruct (issue_disk e username d) as [->|[x ->]]; [by exists m | done].
  - cbn [run]. destruct (logout_disk req d) as [->|[x ->]];
      [by exists m | done].
Qed.

(** X6: every call keeps the todos document a mapping whose entries are
    lists, so after any sequence of calls from such a document List reads a
    list for every user. *)
Theorem todos_stay_lists (cs : list call) (d : disk) :
  wf_todos d →
  wf_todos (run_all cs d) ∧
  ∀ u : string, ∃ l, list_of (run_all cs d) u = Ret (JArr l).
Proof.
  intros Hwf.
  assert (wf_todos (run_all cs d)) as (m & Hm & Hlists).
  { revert d Hwf. induction cs as [|c cs IH]; intros d Hwf; [done|].
    change (run_all (c :: cs) d) with (run_all cs (run c d)).
    by apply IH, run_wf_todos. }
  split; [by exists m|]. intros u. rewrite (list_of_load m) by done.
  destruct (m !! u) as [v|] eqn:E; [|by exists []].
  destruct (Hlists _ _ E) as [l ->]. by exists l.
Qed.

Lemma disk0_wf_todos : wf_todos disk0.
Proof. exists ∅. split; [by vm_compute|]. intros k v. by rewrite lookup_empty. Qed.

Lemma todos_stay_lists_witness :
  ∃ l,
    list_of
      (run_all [IssueToken env0 "alice";
                Import (as_alice (import_body [JNum 1; JStr "two"]));
                Reorder (as_alice (order_body [JStr "a"]))] disk0) "alice"
    = Ret (JArr l).
Proof. apply (todos_stay_lists _ disk0), disk0_wf_todos. Defined.

(** ** Further properties: the sessions document *)

Lemma new_session_names e username :
  truthy (new_session e username) = true ∧
  ∃ u : string, py_getitem (new_session e username) "username" = Ret (JStr u).
Proof. split; [done|]. by exists username. Qed.

Lemma run_wf_sessions c d : wf_sessions d → wf_sessions (run c d).
Proof.
  intros (m & Hm & Hs).
  assert (task_call c → wf_sessions (run c d)) as Htask.
  { intros Hc. destruct (run_task_call c Hc) as (h & req & _ & Hk & _ & Hrun).
    rewrite (proj1 (Hrun d)). exists m.
    by rewrite serve_keeps_sessions. }
  destruct c; try (by apply Htask).
  - cbn [run]. destruct (create_token e username d) as [[t d1]|] eqn:E;
      [|by exists m].
    apply create_token_inv in E as (m' & Hm' & -> & ->).
    rewrite Hm in Hm'. injection Hm' as <-.
    eexists. split; [apply load_sessions_save|].
    intros t s. destruct (decide (t = token_urlsafe32 e)) as [->|Ht].
    + rewrite lookup_insert_eq. intros [= <-]. apply new_session_names.
    + rewrite lookup_insert_ne by done. apply Hs.
  - cbn [run]. unfold serve, token_required.
    destruct (authenticate req d) as [[r|u]|] eqn:Ha; cbn; try by exists m.
    apply authenticate_inv in Ha as (t & s & Hb & _).
    rewrite (api_logout_run t _ _ _ m) by done. cbn.
    case_bool_decide; [|by exists m].
    eexists. split; [apply load_sessions_save|].
    intros t' s'. destruct (decide (t' = t)) as [->|Ht].
    + by rewrite lookup_delete_eq.
    + rewrite lookup_delete_ne by done. apply Hs.
Qed.

(** X7: every call keeps the sessions document a mapping from tokens to
    sessions that name a user; on such a document the guard never raises:
    it answers "missing token" or "invalid token", or binds a user name. *)
Theorem sessions_stay_valid (cs : list call) (d : disk) (req : request) :
  wf_sessions d →
  wf_sessions (run_all cs d) ∧
  (authenticate req (run_all cs d) = Ret (inl missing_token) ∨
   authenticate req (run_all cs d) = Ret (inl invalid_token) ∨
   ∃ u : string, authenticate req (run_all cs d) = Ret (inr (JStr u))).
Proof.
  intros Hwf.
  assert (wf_sessions (run_all cs d)) as Hwf'.
  { revert d Hwf. induction cs as [|c cs IH]; intros d Hwf; [done|].
    change (run_all (c :: cs) d) with (run_all cs (run c d)).
    by apply IH, run_wf_sessions. }
  split; [done|]. destruct Hwf' as (m & Hm & Hs).
  destruct (String.prefix "Bearer " (default ""%string (authorization req)))
    eqn:Hp; [|left; by apply authenticate_no_bearer].
  right. apply prefix_bearer in Hp as [t Ht].
  assert (authorization req = bearer t) as Hb.
  { destruct (authorization req); [by simplify_eq/= | by destruct t]. }
  rewrite (authenticate_bearer t) by done.
  unfold session_of. rewrite Hm, bind_ret. cbn [py_get dict_lookup].
  rewrite !bind_ret. destruct (m !! t) as [s|] eqn:E; [|by left].
  destruct (Hs _ _ E) as (Htruthy & u & Hu). right. exists u.
  cbn [default id]. by rewrite Htruthy, Hu.
Qed.

Lemma disk0_wf_sessions : wf_sessions disk0.
Proof. exists ∅. split; [by vm_compute|]. intros k v. by rewrite lookup_empty. Qed.

Lemma sessions_stay_valid_witness :
  let d := run_all [IssueToken env0 "alice"; IssueToken env1 "bob";
                    Logout (as_alice JNull)] disk0 in
  authenticate (as_alice JNull) d = Ret (inl missing_token) ∨
  authenticate (as_alice JNull) d = Ret (inl invalid_token) ∨
  ∃ u : string, authenticate (as_alice JNull) d = Ret (inr (JStr u)).
Proof. apply (sessions_stay_valid _ disk0), disk0_wf_sessions. Defined.

(** X8: a new token leaves every other token with its session, old tokens
    of the same user included, and leaves every list; a token handed out
    twice is bound to the user of the second call. *)
Theorem create_token_keeps_others (e : env) (username token : string)
    (d d1 : disk) :
  create_token e username d = Ret (token, d1) →
  token = token_urlsafe32 e ∧
  session_of d1 token = Ret (new_session e username) ∧
  (∀ token', token' ≠ token → session_of d1 token' = session_of d token') ∧
  (∀ req, authorization req ≠ bearer token →
     authenticate req d1 = authenticate req d) ∧
  (∀ u : json, list_of d1 u = list_of d u).
Proof.
  intros H. apply create_token_inv in H as (m & Hm & -> & ->).
  split; [done|]. split.
  { rewrite session_of_save_sessions. by rewrite lookup_insert_eq. }
  assert (∀ token', token' ≠ token_urlsafe32 e →
    session_of (save_sessions
      (JObj (<[token_urlsafe32 e := new_session e username]> m)) d) token'
    = session_of d token') as Hother.
  { intros token' Hne. rewrite session_of_save_sessions. unfold session_of.
    rewrite Hm, bind_ret. cbn. by rewrite lookup_insert_ne. }
  split; [done|]. split.
  - intros req Hreq.
    destruct (String.prefix "Bearer " (default ""%string (authorization req)))
      eqn:Hp; [|by rewrite !authenticate_no_bearer].
    apply prefix_bearer in Hp as [t Ht].
    assert (authorization req = bearer t) as Hb.
    { destruct (authorization req); [by simplify_eq/= | by destruct t]. }
    rewrite !(authenticate_bearer t) by done. rewrite Hother; [done|].
    intros ->. done.
  - intros u. unfold list_of. by rewrite load_todos_save_sessions.
Qed.

Lemma create_token_keeps_others_witness :
  let d1 := run (IssueToken env1 "alice") disk_abc in
  session_of d1 "tok-bob" = Ret (new_session env1 "alice") ∧
  authenticate (as_alice JNull) d1 = Ret (inr (JStr "alice")) ∧
  list_of d1 "alice" = Ret (JArr [task_a; task_b; task_c]).
Proof.
  intros d1.
  destruct (create_token_keeps_others env1 "alice" "tok-bob" disk_abc d1)
    as (_ & Hs & _ & Ha & Hl); [by vm_compute|].
  split; [exact Hs|]. split.
  - rewrite Ha by (by intros [=]).
    apply alice_authenticated, disk_abc_sessions.
  - rewrite Hl. apply disk_abc_list.
Defined.

(** X9: the logout of a token answers ok once; the same request again is
    answered 401 "invalid token" and changes nothing; the other tokens keep
    their sessions and the lists stay. *)
Theorem logout_once (req : request) (d : disk) (u : json) :
  authenticate req d = Ret (inr u) →
  ∃ d1,
    serve (token_required api_logout) req d = (jsonify ok_true 200, d1) ∧
    serve (token_required api_logout) req d1 = (invalid_token, d1) ∧
    (∀ token', authorization req ≠ bearer token' →
       session_of d1 token' = session_of d token') ∧
    (∀ u' : json, list_of d1 u' = list_of d u').
Proof.
  intros Ha. pose proof Ha as Ha'.
  apply authenticate_inv in Ha' as (t & s & Hb & Hs & Htr & Hu).
  pose proof Hs as Hs'. apply session_of_obj in Hs' as (m & Hm & Hdef).
  assert (is_Some (m !! t)) as Hin.
  { destruct (m !! t); [eauto|]. subst s. done. }
  exists (save_sessions (JObj (delete t m)) d).
  assert (serve (token_required api_logout) req d
          = (jsonify ok_true 200, save_sessions (JObj (delete t m)) d)) as Hrun.
  { unfold serve, token_required. rewrite Ha, bind_ret.
    rewrite (api_logout_run t _ _ _ m) by done.
    by rewrite bool_decide_eq_true_2. }
  split; [done|]. split; [|split].
  - unfold serve, token_required. rewrite (authenticate_bearer t) by done.
    rewrite session_of_save_sessions. by rewrite lookup_delete_eq.
  - intros token' Hne. rewrite <- (logout_session req d token') by done.
    by rewrite Hrun.
  - intros u'. unfold list_of. by rewrite load_todos_save_sessions.
Qed.

Lemma logout_once_witness :
  ∃ d1,
    serve (token_required api_logout) (as_alice JNull) disk_abc
      = (jsonify ok_true 200, d1) ∧
    serve (token_required api_logout) (as_alice JNull) d1 = (invalid_token, d1).
Proof.
  destruct (logout_once (as_alice JNull) disk_abc (JStr "alice"))
    as (d1 & H1 & H2 & _).
  - apply alice_authenticated, disk_abc_sessions.
  - by exists d1.
Defined.

(** ** Further properties: answers that are not a success *)













(** ** Further properties: validation of the task routes *)

Lemma update_loop_none task_id body (ts : list json) :
  Forall (λ x, is_obj x = true ∧ has_id task_id x = false) ts →
  update_loop task_id body ts = Ret None.
Proof.
  induction 1 as [|x ts [Hx Hn] _ IH]; [done|].
  destruct x as [| | | | |xm]; try discriminate.
  cbn [update_loop py_get dict_lookup]. rewrite !bind_ret.
  replace (py_eq_str (default JNull (xm !! "id")) task_id) with false.
  2:{ unfold has_id, field in Hn. by destruct (xm !! "id"). }
  by rewrite IH.
Qed.

(** X11: Update with an id that no task of the user's list carries answers
    404 "task not found" and leaves the disk, whatever the patch. *)
Theorem update_not_found (task_id : string) (req : request) (d : disk)
    (u : string) (lst : list json) :
  authenticate req d = Ret (inr (JStr u)) →
  list_of d u = Ret (JArr lst) →
  Forall (λ x, is_obj x = true ∧ has_id task_id x = false) lst →
  serve (token_required (api_update_task task_id)) req d =
    (jsonify [("error"%string, JStr "task not found")] 404, d).
Proof.
  intros Ha Hl Hno. apply list_of_obj in Hl as (m & Hm & Hd).
  rewrite (serve_authenticated _ _ _ _ Ha). unfold api_update_task.
  rewrite Hm, bind_ret. cbn [py_get dict_lookup]. rewrite !bind_ret, Hd.
  cbn [py_iter]. by rewrite bind_ret, update_loop_none.
Qed.

Lemma update_not_found_witness :
  serve (token_required (api_update_task "zzz"))
    (as_alice (JObj {[ "title"%string := JStr "new" ]})) disk_abc =
    (jsonify [("error"%string, JStr "task not found")] 404, disk_abc).
Proof.
  apply (update_not_found "zzz" _ disk_abc "alice" [task_a; task_b; task_c]).
  - apply alice_authenticated, disk_abc_sessions.
  - apply disk_abc_list.
  - by repeat constructor.
Defined.

(** X12: Reorder whose "order" is missing or is not a list, and Import
    whose "todos" is missing or is not a list, answer 400 and leave the
    disk, before the todos are even read. *)
Theorem payload_must_be_list (req : request) (d : disk) (u : json)
    (b : gmap string json) :
  authenticate req d = Ret (inr u) →
  get_json req = JObj b →
  ((∀ l, b !! "order" ≠ Some (JArr l)) →
     serve (token_required api_reorder) req d =
       (jsonify [("error"%string, JStr "order must be list of ids")] 400, d)) ∧
  ((∀ l, b !! "todos" ≠ Some (JArr l)) →
     serve (token_required api_import) req d =
       (jsonify [("error"%string, JStr "invalid payload")] 400, d)).
Proof.
  intros Ha Hb. split; intros Hno; rewrite (serve_authenticated _ _ _ _ Ha).
  - unfold api_reorder. rewrite Hb, py_or_obj. cbn [py_get dict_lookup].
    rewrite !bind_ret. destruct (b !! "order") as [[]|] eqn:E; try done.
    by destruct (Hno l).
  - unfold api_import. rewrite Hb, py_or_obj. cbn [py_get dict_lookup].
    rewrite !bind_ret. destruct (b !! "todos") as [[]|] eqn:E; try done.
    by destruct (Hno l).
Qed.

Lemma payload_must_be_list_witness :
  serve (token_required api_reorder)
    (as_alice (JObj {[ "order"%string := JStr "a,b" ]})) disk_abc =
    (jsonify [("error"%string, JStr "order must be list of ids")] 400, disk_abc) ∧
  serve (token_required api_import)
    (as_alice (JObj {[ "order"%string := JStr "a,b" ]})) disk_abc =
    (jsonify [("error"%string, JStr "invalid payload")] 400, disk_abc).
Proof.
  destruct (payload_must_be_list
              (as_alice (JObj {[ "order"%string := JStr "a,b" ]})) disk_abc
              (JStr "alice") {[ "order"%string := JStr "a,b" ]})
    as [H1 H2].
  - apply alice_authenticated, disk_abc_sessions.
  - done.
  - split; [apply H1 | apply H2]; intros l; by vm_compute.
Defined.

(** ** Further properties: accounts *)

Lemma has_name_obj username um :
  py_get (JObj um) "username" JNull ≫= (λ n, Ret (py_eq_str n username))
  = Ret (has_name username (JObj um)).
Proof.
  cbn [py_get dict_lookup]. rewrite !bind_ret. unfold has_name, field.
  by destruct (um !! "username").
Qed.

Lemma any_username_none username (us : list json) :
  Forall (λ u, is_obj u = true ∧ has_name username u = false) us →
  any_username username us = Ret false.
Proof.
  induction 1 as [|u us [Hu Hn] _ IH]; [done|].
  destruct u as [| | | | |um]; try discriminate.
  cbn [any_username py_get dict_lookup]. rewrite !bind_ret.
  replace (py_eq_str (default JNull (um !! "username")) username) with false.
  2:{ unfold has_name, field in Hn. by destruct (um !! "username"). }
  done.
Qed.

Lemma any_username_first username (pre post : list json) um :
  Forall (λ u, is_obj u = true ∧ has_name username u = false) pre →
  has_name username (JObj um) = true →
  any_username username (pre ++ JObj um :: post) = Ret true.
Proof.
  intros Hpre Hu. induction Hpre as [|u pre [Ho Hn] _ IH].
  - cbn [app any_username py_get dict_lookup]. rewrite !bind_ret.
    replace (py_eq_str (default JNull (um !! "username")) username) with true.
    2:{ unfold has_name, field in Hu. by destruct (um !! "username"). }
    done.
  - destruct u as [| | | | |xm]; try discriminate.
    cbn [app any_username py_get dict_lookup]. rewrite !bind_ret.
    replace (py_eq_str (default JNull (xm !! "username")) username) with false.
    2:{ unfold has_name, field in Hn. by destruct (xm !! "username"). }
    done.
Qed.

Lemma find_user_none username (us : list json) :
  Forall (λ u, is_obj u = true ∧ has_name username u = false) us →
  find_user username us = Ret JNull.
Proof.
  induction 1 as [|u us [Hu Hn] _ IH]; [done|].
  destruct u as [| | | | |um]; try discriminate.
  cbn [find_user py_get dict_lookup]. rewrite !bind_ret.
  replace (py_eq_str (default JNull (um !! "username")) username) with false.
  2:{ unfold has_name, field in Hn. by destruct (um !! "username"). }
  done.
Qed.

Lemma find_user_first username (pre post : list json) um :
  Forall (λ u, is_obj u = true ∧ has_name username u = false) pre →
  has_name username (JObj um) = true →
  find_user username (pre ++ JObj um :: post) = Ret (JObj um).
Proof.
  intros Hpre Hu. induction Hpre as [|u pre [Ho Hn] _ IH].
  - cbn [app find_user py_get dict_lookup]. rewrite !bind_ret.
    replace (py_eq_str (default JNull (um !! "username")) username) with true.
    2:{ unfold has_name, field in Hu. by destruct (um !! "username"). }
    done.
  - destruct u as [| | | | |xm]; try discriminate.
    cbn [app find_user py_get dict_lookup]. rewrite !bind_ret.
    replace (py_eq_str (default JNull (xm !! "username")) username) with false.
    2:{ unfold has_name, field in Hn. by destruct (xm !! "username"). }
    done.
Qed.

Lemma first_name_split username (us : list json) :
  Forall (λ u, is_obj u = true) us →
  (∃ u, u ∈ us ∧ has_name username u = true) →
  ∃ pre um post,
    us = pre ++ JObj um :: post ∧
    Forall (λ u, is_obj u = true ∧ has_name username u = false) pre ∧
    has_name username (JObj um) = true.
Proof.
  induction 1 as [|x us Hx Hus IH]; intros (u & Hin & Hu).
  { by apply elem_of_nil in Hin. }
  destruct (has_name username x) eqn:E.
  - destruct x as [| | | | |um]; try discriminate.
    exists [], um, us. split; [done|]. split; [constructor | done].
  - apply elem_of_cons in Hin as [->|Hin]; [congruence|].
    destruct IH as (pre & um & post & -> & Hpre & Hum); [by eauto|].
    exists (x :: pre), um, post. split; [done|]. split; [|done].
    by constructor.
Qed.

Lemma no_name_split username (us : list json) :
  Forall (λ u, is_obj u = true) us →
  (∀ u, u ∈ us → has_name username u = false) →
  Forall (λ u, is_obj u = true ∧ has_name username u = false) us.
Proof.
  intros Hobj Hno. apply Forall_forall. intros u Hu. split; [|by apply Hno].
  by apply (proj1 (Forall_forall _ _) Hobj).
Qed.

Lemma credentials_body username password :
  py_or (credentials username password) (JObj ∅) = credentials username password.
Proof. apply py_or_obj. Qed.

Lemma load_users_save us d : load_users (save_users (JArr us) d) = Ret (JArr us).
Proof.
  unfold load_users, save_users. rewrite read_json_write. cbn.
  unfold py_or. cbn. case_bool_decide; by subst.
Qed.

Lemma load_users_save_todos x d : load_users (save_todos_map x d) = load_users d.
Proof.
  unfold load_users, save_todos_map. by rewrite read_json_write_ne by (by compute).
Qed.

Lemma load_users_save_sessions x d : load_users (save_sessions x d) = load_users d.
Proof.
  unfold load_users, save_sessions. by rewrite read_json_write_ne by (by compute).
Qed.

Lemma load_todos_save_users x d : load_todos_map (save_users x d) = load_todos_map d.
Proof.
  unfold load_todos_map, save_users. by rewrite read_json_write_ne by (by compute).
Qed.

Lemma load_sessions_save_users x d : load_sessions (save_users x d) = load_sessions d.
Proof.
  unfold load_sessions, save_users. by rewrite read_json_write_ne by (by compute).
Qed.

Section AccountFacts.
Context (generate_password_hash : string → json → result string).
Context (check_password_hash : json → json → result bool).

Lemma signup_users_parsed e salt req d b name pw :
  get_json req = JObj b →
  b !! "username" = Some (JStr name) →
  b !! "password" = Some (JStr pw) →
  signup_users generate_password_hash e salt req d =
    if bool_decide (strip name = ""%string) || bool_decide (pw = ""%string) then
      Ret (inl (jsonify [("error"%string,
                          JStr "username and password are required")] 400))
    else
      users ← load_users d;
      us ← py_iter users;
      taken ← any_username (strip name) us;
      if taken : bool then
        Ret (inl (jsonify [("error"%string, JStr "username exists")] 400))
      else
        password_hash ← generate_password_hash salt (JStr pw);
        users ← py_append users (new_user e (strip name) password_hash);
        Ret (inr (strip name, save_users users d)).
Proof.
  intros Hb Hn Hp. unfold signup_users. rewrite Hb, py_or_obj.
  cbn [py_get dict_lookup]. rewrite !bind_ret, Hn, Hp. cbn [default id].
  rewrite !py_or_str. cbn [py_strip]. rewrite !bind_ret, py_or_str.
  cbn [truthy]. by rewrite negb_involutive.
Qed.

(** X13: Signup answers 400 and leaves the disk when the user name is empty
    once stripped or the password is empty, and when a user of the stripped
    name is already recorded. *)
Theorem signup_rejects (e : env) (salt : string) (req : request) (d : disk)
    (b : gmap string json) (name pw : string) (us : list json) :
  get_json req = JObj b →
  b !! "username" = Some (JStr name) →
  b !! "password" = Some (JStr pw) →
  (strip name = ""%string ∨ pw = ""%string →
     api_signup generate_password_hash e salt req d =
       (jsonify [("error"%string,
                  JStr "username and password are required")] 400, d)) ∧
  (strip name ≠ ""%string → pw ≠ ""%string →
   load_users d = Ret (JArr us) →
   Forall (λ u, is_obj u = true) us →
   (∃ u, u ∈ us ∧ has_name (strip name) u = true) →
     api_signup generate_password_hash e salt req d =
       (jsonify [("error"%string, JStr "username exists")] 400, d)).
Proof.
  intros Hb Hn Hp. split.
  - intros Hempty. unfold api_signup.
    rewrite (signup_users_parsed e salt req d b name pw) by done.
    destruct Hempty as [H|H].
    + by rewrite (bool_decide_eq_true_2 _ H).
    + rewrite (bool_decide_eq_true_2 (pw = ""%string) H).
      by rewrite orb_true_r.
  - intros Hname Hpw Hus Hobj Hin. unfold api_signup.
    rewrite (signup_users_parsed e salt req d b name pw) by done.
    rewrite !bool_decide_eq_false_2 by done. cbn [orb].
    rewrite Hus, bind_ret. cbn [py_iter]. rewrite bind_ret.
    destruct (first_name_split _ _ Hobj Hin) as (pre & um & post & -> & Hpre & Hum).
    by rewrite any_username_first.
Qed.

Lemma signup_run e salt req d b name pw us h m :
  get_json req = JObj b →
  b !! "username" = Some (JStr name) →
  b !! "password" = Some (JStr pw) →
  strip name ≠ ""%string → pw ≠ ""%string →
  load_users d = Ret (JArr us) →
  Forall (λ u, is_obj u = true ∧ has_name (strip name) u = false) us →
  generate_password_hash salt (JStr pw) = Ret h →
  load_todos_map d = Ret (JObj m) →
  api_signup generate_password_hash e salt req d =
    (jsonify
       [("ok"%string, JBool true);
        ("user"%string,
         JObj (list_to_map [("username"%string, JStr (strip name));
                            ("createdAt"%string, JStr (utcnow_iso e))]))] 201,
     save_todos_map
       (JObj (match m !! strip name with
              | Some _ => m
              | None => <[strip name := JArr []]> m
              end))
       (save_users (JArr (us ++ [new_user e (strip name) h])) d)).
Proof.
  intros Hb Hn Hp Hname Hpw Hus Hno Hh Hm. unfold api_signup.
  rewrite (signup_users_parsed e salt req d b name pw) by done.
  rewrite !bool_decide_eq_false_2 by done. cbn [orb].
  rewrite Hus, bind_ret. cbn [py_iter]. rewrite bind_ret.
  rewrite any_username_none by done. rewrite bind_ret, Hh, bind_ret.
  cbn [py_append]. rewrite bind_ret. unfold signup_todos.
  by rewrite load_todos_save_users, Hm.
Qed.

(** X14: Signup with a fresh stripped name and a password answers 201; the
    users are the ones before followed by the new record, which carries the
    stripped name and the hash; the new user reads an empty list, or the
    list already stored under that name; every other list and every session
    is as before; user names that were pairwise distinct still are. *)
Theorem signup_records_user (e : env) (salt : string) (req : request) (d : disk)
    (b : gmap string json) (name pw h : string) (us : list json)
    (m : gmap string json) :
  get_json req = JObj b →
  b !! "username" = Some (JStr name) →
  b !! "password" = Some (JStr pw) →
  strip name ≠ ""%string → pw ≠ ""%string →
  load_users d = Ret (JArr us) →
  Forall (λ u, is_obj u = true) us →
  (∀ u, u ∈ us → has_name (strip name) u = false) →
  generate_password_hash salt (JStr pw) = Ret h →
  load_todos_map d = Ret (JObj m) →
  ∃ r d',
    api_signup generate_password_hash e salt req d = (r, d') ∧
    status r = 201 ∧
    load_users d' = Ret (JArr (us ++ [new_user e (strip name) h])) ∧
    field "username" (new_user e (strip name) h) = Some (JStr (strip name)) ∧
    field "password_hash" (new_user e (strip name) h) = Some (JStr h) ∧
    list_of d' (strip name) = Ret (default (JArr []) (m !! strip name)) ∧
    (∀ u' : string, u' ≠ strip name → list_of d' u' = list_of d u') ∧
    load_sessions d' = load_sessions d ∧
    (NoDup (field "username" <$> us) →
       NoDup (field "username" <$> us ++ [new_user e (strip name) h])).
Proof.
  intros Hb Hn Hp Hname Hpw Hus Hobj Hno Hh Hm.
  eexists _, _. split.
  { apply (signup_run e salt req d b name pw us h m); try done.
    by apply no_name_split. }
  split; [done|]. split.
  { by rewrite load_users_save_todos, load_users_save. }
  split; [done|]. split; [done|]. split.
  { rewrite list_of_save. destruct (m !! strip name) eqn:E; [by rewrite E|].
    by rewrite lookup_insert_eq. }
  split.
  { intros u' Hu'. rewrite list_of_save, (list_of_load m) by done.
    destruct (m !! strip name); [done|]. by rewrite lookup_insert_ne. }
  split.
  { by rewrite load_sessions_save_todos, load_sessions_save_users. }
  intros Hnd. rewrite fmap_app. apply NoDup_app. split; [done|]. split.
  - intros x Hx Hx'. apply list_elem_of_fmap in Hx as (u & -> & Hu).
    apply list_elem_of_singleton in Hx'. specialize (Hno u Hu).
    change (field "username" (new_user e (strip name) h))
      with (Some (JStr (strip name))) in Hx'.
    unfold has_name in Hno. rewrite Hx' in Hno. cbn [py_eq_str] in Hno.
    by rewrite bool_decide_eq_true_2 in Hno by done.
  - apply NoDup_singleton.
Qed.
End AccountFacts.

Lemma has_name_truthy username um :
  has_name username (JObj um) = true → truthy (JObj um) = true.
Proof.
  intros H. cbn [truthy]. case_bool_decide as E; [|done].
  apply dom_empty_inv_L in E. subst um. unfold has_name, field in H.
  by rewrite lookup_empty in H.
Qed.

Lemma new_user_has_name e username h :
  has_name username (new_user e username h) = true.
Proof.
  unfold has_name.
  change (field "username" (new_user e username h)) with (Some (JStr username)).
  cbn [py_eq_str]. by apply bool_decide_eq_true_2.
Qed.

Section LoginFacts.
Context (generate_password_hash : string → json → result string).
Context (check_password_hash : json → json → result bool).

Lemma login_parsed e req d b name pw :
  get_json req = JObj b →
  b !! "username" = Some (JStr name) →
  b !! "password" = Some (JStr pw) →
  api_login check_password_hash e req d =
    if bool_decide (strip name = ""%string) || bool_decide (pw = ""%string) then
      Ret (jsonify [("error"%string,
                     JStr "username and password required")] 400, d)
    else
      users ← load_users d;
      us ← py_iter users;
      user ← find_user (strip name) us;
      bad ← (if negb (truthy user) then Ret true
             else
               h ← py_get user "password_hash" (JStr "");
               ok ← check_password_hash h (JStr pw);
               Ret (negb ok));
      if bad : bool then
        Ret (jsonify [("error"%string, JStr "invalid credentials")] 401, d)
      else
        '(token, d') ← create_token e (strip name) d;
        created ← py_get user "createdAt" JNull;
        Ret (jsonify
               [("ok"%string, JBool true);
                ("token"%string, JStr token);
                ("user"%string,
                 JObj (list_to_map [("username"%string, JStr (strip name));
                                    ("createdAt"%string, created)]))] 200,
             d').
Proof.
  intros Hb Hn Hp. unfold api_login. rewrite Hb, py_or_obj.
  cbn [py_get dict_lookup]. rewrite !bind_ret, Hn, Hp. cbn [default id].
  rewrite !py_or_str. cbn [py_strip]. rewrite !bind_ret, py_or_str.
  cbn [truthy]. by rewrite negb_involutive.
Qed.

(** X15: Login answers 400 when the stripped user name or the password is
    empty, and 401 "invalid credentials" when no record carries the name or
    when the hash of the first record that carries it does not check
    against the password; in each case no session is made: the disk is
    left as it was. *)
Theorem login_rejects (e : env) (req : request) (d : disk)
    (b : gmap string json) (name pw : string) (us : list json) :
  get_json req = JObj b →
  b !! "username" = Some (JStr name) →
  b !! "password" = Some (JStr pw) →
  (strip name = ""%string ∨ pw = ""%string →
     serve (api_login check_password_hash e) req d =
       (jsonify [("error"%string,
                  JStr "username and password required")] 400, d)) ∧
  (strip name ≠ ""%string → pw ≠ ""%string →
   load_users d = Ret (JArr us) →
   Forall (λ u, is_obj u = true) us →
   ((∀ u, u ∈ us → has_name (strip name) u = false) ∨
    (∃ pre um post,
       us = pre ++ JObj um :: post ∧
       Forall (λ u, has_name (strip name) u = false) pre ∧
       has_name (strip name) (JObj um) = true ∧
       check_password_hash (default (JStr "") (um !! "password_hash")) (JStr pw)
         = Ret false)) →
     serve (api_login check_password_hash e) req d =
       (jsonify [("error"%string, JStr "invalid credentials")] 401, d)).
Proof.
  intros Hb Hn Hp. split.
  - intros Hempty. unfold serve.
    rewrite (login_parsed e req d b name pw) by done.
    destruct Hempty as [H|H].
    + by rewrite (bool_decide_eq_true_2 _ H).
    + rewrite (bool_decide_eq_true_2 (pw = ""%string) H).
      by rewrite orb_true_r.
  - intros Hname Hpw Hus Hobj Hcase. unfold serve.
    rewrite (login_parsed e req d b name pw) by done.
    rewrite !bool_decide_eq_false_2 by done. cbn [orb].
    rewrite Hus, bind_ret. cbn [py_iter]. rewrite bind_ret.
    destruct Hcase as [Hno|(pre & um & post & -> & Hpre & Hum & Hck)].
    + rewrite find_user_none by (by apply no_name_split). by rewrite bind_ret.
    + rewrite find_user_first; [|apply Forall_forall; intros u Hu; split|done].
      * rewrite bind_ret, (has_name_truthy _ _ Hum). cbn [negb py_get dict_lookup].
        by rewrite !bind_ret, Hck.
      * apply (proj1 (Forall_forall _ _) Hobj). apply elem_of_app. by left.
      * by apply (proj1 (Forall_forall _ _) Hpre).
Qed.

Lemma login_run e req d b name pw (pre post : list json) um sm :
  get_json req = JObj b →
  b !! "username" = Some (JStr name) →
  b !! "password" = Some (JStr pw) →
  strip name ≠ ""%string → pw ≠ ""%string →
  load_users d = Ret (JArr (pre ++ JObj um :: post)) →
  Forall (λ u, is_obj u = true ∧ has_name (strip name) u = false) pre →
  has_name (strip name) (JObj um) = true →
  check_password_hash (default (JStr "") (um !! "password_hash")) (JStr pw)
    = Ret true →
  load_sessions d = Ret (JObj sm) →
  serve (api_login check_password_hash e) req d =
    (jsonify
       [("ok"%string, JBool true);
        ("token"%string, JStr (token_urlsafe32 e));
        ("user"%string,
         JObj (list_to_map
                 [("username"%string, JStr (strip name));
                  ("createdAt"%string, default JNull (um !! "createdAt"))]))]
       200,
     save_sessions
       (JObj (<[token_urlsafe32 e := new_session e (strip name)]> sm)) d).
Proof.
  intros Hb Hn Hp Hname Hpw Hus Hpre Hum Hck Hsm.
  unfold serve. rewrite (login_parsed e req d b name pw) by done.
  rewrite !bool_decide_eq_false_2 by done. cbn [orb].
  rewrite Hus, bind_ret. cbn [py_iter].
  rewrite bind_ret, find_user_first by done.
  rewrite bind_ret, (has_name_truthy _ _ Hum). cbn [negb py_get dict_lookup].
  rewrite !bind_ret, Hck, !bind_ret. cbn [negb].
  unfold create_token. rewrite Hsm. reflexivity.
Qed.

Lemma login_token_authenticates e name sm d req' :
  authorization req' = bearer (token_urlsafe32 e) →
  authenticate req'
    (save_sessions (JObj (<[token_urlsafe32 e := new_session e name]> sm)) d)
  = Ret (inr (JStr name)).
Proof.
  intros Hreq'. rewrite (authenticate_bearer (token_urlsafe32 e)) by done.
  rewrite session_of_save_sessions. by rewrite lookup_insert_eq.
Qed.

(** X16: Login with the name of a record whose hash checks against the
    password answers 200 with a token; that token then authenticates as the
    stripped name; the users, the lists and the sessions of the other
    tokens are as before. *)
Theorem login_issues_token (e : env) (req : request) (d : disk)
    (b : gmap string json) (name pw : string) (pre post : list json)
    (um sm : gmap string json) :
  get_json req = JObj b →
  b !! "username" = Some (JStr name) →
  b !! "password" = Some (JStr pw) →
  strip name ≠ ""%string → pw ≠ ""%string →
  load_users d = Ret (JArr (pre ++ JObj um :: post)) →
  Forall (λ u, is_obj u = true ∧ has_name (strip name) u = false) pre →
  has_name (strip name) (JObj um) = true →
  check_password_hash (default (JStr "") (um !! "password_hash")) (JStr pw)
    = Ret true →
  load_sessions d = Ret (JObj sm) →
  ∃ d',
    serve (api_login check_password_hash e) req d =
      (jsonify
         [("ok"%string, JBool true);
          ("token"%string, JStr (token_urlsafe32 e));
          ("user"%string,
           JObj (list_to_map
                   [("username"%string, JStr (strip name));
                    ("createdAt"%string, default JNull (um !! "createdAt"))]))]
         200, d') ∧
    (∀ req', authorization req' = bearer (token_urlsafe32 e) →
       authenticate req' d' = Ret (inr (JStr (strip name)))) ∧
    (∀ token', token' ≠ token_urlsafe32 e →
       session_of d' token' = session_of d token') ∧
    load_users d' = load_users d ∧
    load_todos_map d' = load_todos_map d.
Proof.
  intros Hb Hn Hp Hname Hpw Hus Hpre Hum Hck Hsm.
  exists (save_sessions
            (JObj (<[token_urlsafe32 e := new_session e (strip name)]> sm)) d).
  split; [|split; [|split; [|split]]].
  - by apply (login_run e req d b name pw pre post um sm).
  - intros req' Hreq'. by apply login_token_authenticates.
  - intros token' Hne. rewrite session_of_save_sessions. unfold session_of.
    rewrite Hsm, bind_ret. cbn. by rewrite lookup_insert_ne.
  - apply load_users_save_sessions.
  - apply load_todos_save_sessions.
Qed.

(** X17: after a Signup that answered 201, Login with the same name and
    password answers 200 with a token that authenticates as the stripped
    name, provided the check function accepts the hash that the hash
    function gave for the password. *)
Theorem signup_then_login (e e' : env) (salt : string) (req : request)
    (d : disk) (b : gmap string json) (name pw h : string) (us : list json)
    (m sm : gmap string json) :
  get_json req = JObj b →
  b !! "username" = Some (JStr name) →
  b !! "password" = Some (JStr pw) →
  strip name ≠ ""%string → pw ≠ ""%string →
  load_users d = Ret (JArr us) →
  Forall (λ u, is_obj u = true) us →
  (∀ u, u ∈ us → has_name (strip name) u = false) →
  generate_password_hash salt (JStr pw) = Ret h →
  check_password_hash (JStr h) (JStr pw) = Ret true →
  load_todos_map d = Ret (JObj m) →
  load_sessions d = Ret (JObj sm) →
  let d1 := (api_signup generate_password_hash e salt req d).2 in
  status (api_signup generate_password_hash e salt req d).1 = 201 ∧
  ∃ r d2,
    serve (api_login check_password_hash e') req d1 = (r, d2) ∧
    status r = 200 ∧
    field "token" (payload r) = Some (JStr (token_urlsafe32 e')) ∧
    ∀ req', authorization req' = bearer (token_urlsafe32 e') →
      authenticate req' d2 = Ret (inr (JStr (strip name))).
Proof.
  intros Hb Hn Hp Hname Hpw Hus Hobj Hno Hh Hck Hm Hsm d1. subst d1.
  rewrite (signup_run generate_password_hash e salt req d b name pw us h m)
    by (try done; by apply no_name_split).
  split; [done|]. cbn [snd].
  eexists _, _. split.
  { apply (login_run e' req _ b name pw us []
             (list_to_map
                [("username"%string, JStr (strip name));
                 ("password_hash"%string, JStr h);
                 ("createdAt"%string, JStr (utcnow_iso e))]) sm); try done.
    - by rewrite load_users_save_todos, load_users_save.
    - by apply no_name_split.
    - apply new_user_has_name.
    - by rewrite load_sessions_save_todos, load_sessions_save_users. }
  split; [done|]. split; [done|].
  intros req' Hreq'. by apply login_token_authenticates.
Qed.
End LoginFacts.

(** ** The account properties on the concrete run *)

Lemma disk_signed_users :
  load_users disk_signed = Ret (JArr [new_user env0 "alice" "salt$s3cret"]).
Proof. by vm_compute. Qed.

Lemma signup_rejects_witness :
  api_signup toy_hash env0 "salt" (anonymous (credentials "   " "s3cret")) disk0
    = (jsonify [("error"%string,
                 JStr "username and password are required")] 400, disk0) ∧
  api_signup toy_hash env1 "pepper" (anonymous (credentials "alice" "other"))
    disk_signed
    = (jsonify [("error"%string, JStr "username exists")] 400, disk_signed).
Proof.
  split.
  - apply (proj1 (signup_rejects toy_hash env0 "salt"
                    (anonymous (credentials "   " "s3cret")) disk0
                    _ "   " "s3cret" [] eq_refl eq_refl eq_refl)).
    by left.
  - apply (proj2 (signup_rejects toy_hash env1 "pepper"
                    (anonymous (credentials "alice" "other")) disk_signed
                    _ "alice" "other" [new_user env0 "alice" "salt$s3cret"]
                    eq_refl eq_refl eq_refl)).
    + done.
    + done.
    + apply disk_signed_users.
    + by repeat constructor.
    + exists (new_user env0 "alice" "salt$s3cret"). split; [set_solver | done].
Defined.

Lemma signup_records_user_witness :
  ∃ r d',
    api_signup toy_hash env0 "salt" (anonymous (credentials " alice " "s3cret"))
      disk0 = (r, d') ∧
    status r = 201 ∧
    load_users d' = Ret (JArr [new_user env0 "alice" "salt$s3cret"]) ∧
    list_of d' "alice" = Ret (JArr []).
Proof.
  destruct (signup_records_user toy_hash env0 "salt"
              (anonymous (credentials " alice " "s3cret")) disk0
              _ " alice " "s3cret" "salt$s3cret" [] ∅
              eq_refl eq_refl eq_refl)
    as (r & d' & Hrun & Hst & Hus & _ & _ & Hl & _);
    try done; try (by vm_compute).
  - intros u Hu. by apply elem_of_nil in Hu.
  - exists r, d'. split; [exact Hrun|]. split; [exact Hst|].
    split; [exact Hus | exact Hl].
Defined.

Lemma login_rejects_witness :
  serve (api_login toy_check env1) (anonymous (credentials "alice" "wrong"))
    disk_signed
    = (jsonify [("error"%string, JStr "invalid credentials")] 401, disk_signed) ∧
  serve (api_login toy_check env1) (anonymous (credentials "bob" "s3cret"))
    disk_signed
    = (jsonify [("error"%string, JStr "invalid credentials")] 401, disk_signed) ∧
  serve (api_login toy_check env1) (anonymous (credentials "alice" ""))
    disk_signed
    = (jsonify [("error"%string,
                 JStr "username and password required")] 400, disk_signed).
Proof.
  split; [|split].
  - apply (proj2 (login_rejects toy_check env1
                    (anonymous (credentials "alice" "wrong")) disk_signed
                    _ "alice" "wrong" [new_user env0 "alice" "salt$s3cret"]
                    eq_refl eq_refl eq_refl)).
    + done.
    + done.
    + apply disk_signed_users.
    + by repeat constructor.
    + right. eexists [], _, []. split; [reflexivity|]. split; [constructor|].
      split; by vm_compute.
  - apply (proj2 (login_rejects toy_check env1
                    (anonymous (credentials "bob" "s3cret")) disk_signed
                    _ "bob" "s3cret" [new_user env0 "alice" "salt$s3cret"]
                    eq_refl eq_refl eq_refl)).
    + done.
    + done.
    + apply disk_signed_users.
    + by repeat constructor.
    + left. intros u Hu. apply list_elem_of_singleton in Hu. by subst.
  - apply (proj1 (login_rejects toy_check env1
                    (anonymous (credentials "alice" "")) disk_signed
                    _ "alice" "" [] eq_refl eq_refl eq_refl)).
    by right.
Defined.

Lemma login_issues_token_witness :
  ∃ r d',
    serve (api_login toy_check env1) (anonymous (credentials "alice" "s3cret"))
      disk_signed = (r, d') ∧
    field "token" (payload r) = Some (JStr "tok-bob") ∧
    authenticate {| authorization := bearer "tok-bob"; get_json := JNull |} d'
      = Ret (inr (JStr "alice")).
Proof.
  destruct (login_issues_token toy_check env1
              (anonymous (credentials "alice" "s3cret")) disk_signed
              _ "alice" "s3cret" [] []
              (list_to_map
                 [("username"%string, JStr "alice");
                  ("password_hash"%string, JStr "salt$s3cret");
                  ("createdAt"%string, JStr "2024-01-01T00:00:00")]) ∅
              eq_refl eq_refl eq_refl)
    as (d' & Hrun & Hauth & _); try done; try (by vm_compute).
  - eexists _, d'. split; [exact Hrun|]. split; [done|]. by apply Hauth.
Defined.

Lemma signup_then_login_witness :
  let req := anonymous (credentials " alice " "s3cret") in
  let d1 := (api_signup toy_hash env0 "salt" req disk0).2 in
  ∃ r d2,
    serve (api_login toy_check env1) req d1 = (r, d2) ∧
    status r = 200 ∧
    authenticate {| authorization := bearer "tok-bob"; get_json := JNull |} d2
      = Ret (inr (JStr "alice")).
Proof.
  intros req d1.
  destruct (signup_then_login toy_hash toy_check env0 env1 "salt" req disk0
              _ " alice " "s3cret" "salt$s3cret" [] ∅ ∅
              eq_refl eq_refl eq_refl)
    as (_ & r & d2 & Hrun & Hst & _ & Hauth); try done; try (by vm_compute).
  - intros u Hu. by apply elem_of_nil in Hu.
  - exists r, d2. split; [exact Hrun|]. split; [exact Hst|]. by apply Hauth.
Defined.

(** ** Further properties: how the task routes compose *)

Lemma api_reorder_run (u : string) req d m (lst order : list json) b :
  load_todos_map d = Ret (JObj m) →
  default (JArr []) (m !! u) = JArr lst →
  Forall (λ t, is_Some (task_key t)) lst →
  get_json req = JObj b →
  b !! "order" = Some (JArr order) →
  Forall (λ i, is_Some (key_of i)) order →
  api_reorder u req d =
    Ret (jsonify ok_true 200,
         save_todos_map (JObj (<[u := JArr (reordered lst order)]> m)) d).
Proof.
  intros Hm Hd Hlst Hb Ho Hord.
  destruct (id_to_task_spec lst ∅ Hlst) as (idm & Hidm & Hlook).
  unfold api_reorder.
  rewrite Hb, py_or_obj. cbn [py_get dict_lookup]. rewrite !bind_ret, Ho.
  cbn [default id]. rewrite Hm, !bind_ret. cbn [py_get dict_lookup].
  rewrite !bind_ret, Hd. cbn [py_iter].
  rewrite bind_ret, Hidm, bind_ret, in_order_spec, bind_ret by done.
  replace (omap (λ i, k ← key_of i; idm !! k) order)
    with (reordered lst order); [done|].
  unfold reordered. apply list_omap_ext, Forall_Forall2_diag, Forall_true.
  intros i. destruct (key_of i) as [k|]; [|done]. cbn.
  rewrite Hlook, lookup_empty. by destruct (last_with k lst).
Qed.

Lemma last_with_unique k (lst : list json) t :
  NoDup (task_key <$> lst) →
  t ∈ lst → task_key t = Some k → last_with k lst = Some t.
Proof.
  intros Hnd Hin Hk.
  assert (t ∈ filter (λ x, task_key x = Some k) lst) as Hf.
  { by apply list_elem_of_filter. }
  rewrite filter_last_with in Hf by done.
  destruct (last_with k lst) as [t'|]; cbn in Hf.
  - apply list_elem_of_singleton in Hf. by subst.
  - by apply elem_of_nil in Hf.
Qed.

Lemma reordered_sub (lst order sub : list json) :
  NoDup (task_key <$> lst) →
  sub ⊆ lst →
  Forall2 (λ i t, is_Some (key_of i) ∧ key_of i = task_key t) order sub →
  reordered lst order = sub.
Proof.
  intros Hnd Hsub H. unfold reordered.
  induction H as [|i t order sub [[k Hk] Hit] _ IH]; [done|].
  cbn [omap list_omap]. rewrite Hk. cbn [mbind option_bind].
  rewrite (last_with_unique k lst t); [| done | set_solver | congruence].
  f_equal. apply IH. set_solver.
Qed.

(** X18: on a list whose tasks carry pairwise distinct ids, Reorder with
    the ids of the list in any order answers ok and leaves a permutation of
    the list: no task is lost and none is doubled; with the ids in the order
    of the list, the list is unchanged. *)
Theorem reorder_permutes (req : request) (d : disk) (u : string)
    (lst order order0 : list json) (b : gmap string json) :
  authenticate req d = Ret (inr (JStr u)) →
  list_of d u = Ret (JArr lst) →
  NoDup (task_key <$> lst) →
  Forall2 (λ i t, is_Some (key_of i) ∧ key_of i = task_key t) order0 lst →
  order ≡ₚ order0 →
  get_json req = JObj b →
  b !! "order" = Some (JArr order) →
  ∃ d' lst',
    serve (token_required api_reorder) req d = (jsonify ok_true 200, d') ∧
    list_of d' u = Ret (JArr lst') ∧
    lst' ≡ₚ lst ∧
    (order = order0 → lst' = lst).
Proof.
  intros Ha Hl Hnd H0 Hperm Hb Ho.
  apply list_of_obj in Hl as (m & Hm & Hd).
  assert (reordered lst order0 = lst) as Hid.
  { by apply reordered_sub. }
  assert (Forall (λ t, is_Some (task_key t)) lst) as Hkeys.
  { clear -H0. induction H0 as [|i t ?? [[k Hk] Hit] _ IH]; constructor; [|done].
    rewrite <- Hit. eauto. }
  assert (Forall (λ i, is_Some (key_of i)) order) as Hord.
  { rewrite Hperm. clear -H0.
    induction H0 as [|i t ?? [Hk _] _ IH]; by constructor. }
  exists (save_todos_map (JObj (<[u := JArr (reordered lst order)]> m)) d),
         (reordered lst order).
  split; [|split; [|split]].
  - rewrite (serve_authenticated _ _ _ _ Ha).
    by rewrite (api_reorder_run u req d m lst order b).
  - apply list_of_save_same.
  - rewrite <- Hid at 2. unfold reordered. by rewrite Hperm.
  - by intros ->.
Qed.

Lemma reorder_permutes_witness :
  ∃ d' lst',
    serve (token_required api_reorder)
      (as_alice (order_body [JStr "c"; JStr "a"; JStr "b"])) disk_abc
      = (jsonify ok_true 200, d') ∧
    list_of d' "alice" = Ret (JArr lst') ∧
    lst' ≡ₚ [task_a; task_b; task_c].
Proof.
  destruct (reorder_permutes
              (as_alice (order_body [JStr "c"; JStr "a"; JStr "b"])) disk_abc
              "alice" [task_a; task_b; task_c]
              [JStr "c"; JStr "a"; JStr "b"] [JStr "a"; JStr "b"; JStr "c"]
              {[ "order"%string := JArr [JStr "c"; JStr "a"; JStr "b"] ]})
    as (d' & lst' & Hs & Hl & Hp & _).
  - apply alice_authenticated, disk_abc_sessions.
  - apply disk_abc_list.
  - change (NoDup [Some (KStr "a"); Some (KStr "b"); Some (KStr "c")]).
    repeat (apply NoDup_cons_2;
            [rewrite ?elem_of_cons, elem_of_nil; intuition congruence|]).
    apply NoDup_nil_2.
  - repeat constructor; by eexists.
  - by rewrite (Permutation_cons_append [JStr "a"; JStr "b"] (JStr "c")).
  - done.
  - done.
  - by exists d', lst'.
Defined.

Lemma api_delete_task_run task_id (u : string) req d m (lst : list json) :
  load_todos_map d = Ret (JObj m) →
  default (JArr []) (m !! u) = JArr lst →
  Forall (λ x, is_obj x = true) lst →
  api_delete_task task_id u req d =
    Ret (jsonify ok_true 200,
         save_todos_map
           (JObj (<[u := JArr (filter (λ t, has_id task_id t = false) lst)]> m)) d).
Proof.
  intros Hm Hd Hobj. unfold api_delete_task.
  rewrite Hm, bind_ret. cbn [py_get dict_lookup]. rewrite !bind_ret, Hd.
  cbn [py_iter]. by rewrite bind_ret, without_id_objs by done.
Qed.

Lemma filter_no_id task_id (lst : list json) :
  Forall (λ t, has_id task_id t = false) lst →
  filter (λ t, has_id task_id t = false) lst = lst.
Proof.
  induction 1 as [|t lst Ht _ IH]; [done|].
  by rewrite filter_cons_True, IH.
Qed.

Lemma new_task_has_id e title dn im :
  has_id (new_task_id e) (new_task e title dn im) = true.
Proof.
  unfold has_id.
  change (field "id" (new_task e title dn im))
    with (Some (JStr (new_task_id e))).
  cbn [py_eq_str]. by apply bool_decide_eq_true_2.
Qed.

(** X19: Delete with the id that a Create just answered undoes the Create:
    on a list of tasks none of which carries that id, the user's list is
    again the list before the Create; and a Delete repeated changes nothing
    more. *)
Theorem create_then_delete (e : env) (req req' : request) (d : disk)
    (u : string) (b : gmap string json) (title : string) (lst : list json) :
  authenticate req d = Ret (inr (JStr u)) →
  authorization req' = authorization req →
  get_json req = JObj b →
  b !! "title" = Some (JStr title) →
  strip title ≠ ""%string →
  list_of d u = Ret (JArr lst) →
  Forall (λ x, is_obj x = true) lst →
  Forall (λ t, has_id (new_task_id e) t = false) lst →
  let d1 := run (CreateTask e req) d in
  let d2 := run (DeleteTask (new_task_id e) req') d1 in
  let d3 := run (DeleteTask (new_task_id e) req') d2 in
  (∃ task, list_of d1 u = Ret (JArr (task :: lst)) ∧
           field "id" task = Some (JStr (new_task_id e))) ∧
  answer (DeleteTask (new_task_id e) req') d1 = Some (jsonify ok_true 200) ∧
  list_of d2 u = Ret (JArr lst) ∧
  answer (DeleteTask (new_task_id e) req') d2 = Some (jsonify ok_true 200) ∧
  list_of d3 u = Ret (JArr lst).
Proof.
  intros Ha Hh Hb Ht Hs Hl Hobj Hfresh.
  apply list_of_obj in Hl as (m & Hm & Hd).
  set (task := new_task e (strip title) (default (JBool false) (b !! "done"))
                 (default (JBool false) (b !! "important"))).
  set (m1 := <[u := JArr (task :: lst)]> m).
  assert (run (CreateTask e req) d = save_todos_map (JObj m1) d) as ->.
  { cbn [run]. rewrite (serve_authenticated _ _ _ _ Ha).
    rewrite (api_create_task_run e u req d b title m lst) by done.
    by rewrite bool_decide_eq_false_2. }
  assert (∀ x, authenticate req' (save_todos_map x d) = Ret (inr (JStr u)))
    as Ha1.
  { intros x. rewrite (authenticate_header req) by done. rewrite <- Ha.
    apply authenticate_ext, load_sessions_save_todos. }
  assert (filter (λ t, has_id (new_task_id e) t = false) (task :: lst) = lst)
    as Hfilter.
  { rewrite filter_cons_False
      by (unfold task; by rewrite new_task_has_id).
    by apply filter_no_id. }
  set (d1 := save_todos_map (JObj m1) d).
  assert (serve (token_required (api_delete_task (new_task_id e))) req' d1
          = (jsonify ok_true 200,
             save_todos_map (JObj (<[u := JArr lst]> m1)) d1)) as Hdel1.
  { rewrite (serve_authenticated _ req' d1 (JStr u) (Ha1 (JObj m1))).
    rewrite (api_delete_task_run _ u req' d1 m1 (task :: lst)).
    - by rewrite Hfilter.
    - apply load_todos_save.
    - unfold m1. by rewrite lookup_insert_eq.
    - by constructor. }
  set (m2 := <[u := JArr lst]> m1) in *.
  set (d2 := save_todos_map (JObj m2) d1) in *.
  assert (authenticate req' d2 = Ret (inr (JStr u))) as Ha2.
  { unfold d2. rewrite (authenticate_ext d1) by apply load_sessions_save_todos.
    apply Ha1. }
  assert (serve (token_required (api_delete_task (new_task_id e))) req' d2
          = (jsonify ok_true 200,
             save_todos_map (JObj (<[u := JArr lst]> m2)) d2)) as Hdel2.
  { rewrite (serve_authenticated _ _ _ _ Ha2).
    rewrite (api_delete_task_run _ u req' d2 m2 lst).
    - by rewrite filter_no_id.
    - apply load_todos_save.
    - unfold m2. by rewrite lookup_insert_eq.
    - done. }
  cbv zeta. cbn [run answer]. rewrite Hdel1. cbn [fst snd]. rewrite Hdel2.
  cbn [fst snd].
  split; [|split; [|split; [|split]]]; try done.
  - exists task. split; [apply list_of_save_same | done].
  - apply list_of_save_same.
  - apply list_of_save_same.
Qed.

Lemma create_then_delete_witness :
  let req := as_alice (JObj {[ "title"%string := JStr "Buy milk" ]}) in
  let d1 := run (CreateTask env0 req) disk_abc in
  let d2 := run (DeleteTask (new_task_id env0) (as_alice JNull)) d1 in
  list_of d2 "alice" = Ret (JArr [task_a; task_b; task_c]).
Proof.
  intros req d1 d2.
  pose proof (create_then_delete env0 req (as_alice JNull) disk_abc "alice"
                {[ "title"%string := JStr "Buy milk" ]} "Buy milk"
                [task_a; task_b; task_c]) as H.
  destruct H as (_ & _ & H & _).
  - apply alice_authenticated, disk_abc_sessions.
  - done.
  - done.
  - done.
  - by vm_compute.
  - apply disk_abc_list.
  - apply abc_objects.
  - by repeat constructor.
  - exact H.
Defined.

(** ** Further properties: initialisation *)



